(** * Loan-risk inference endpoint: the encoding and inference pipeline of app.py

    A shallow embedding of [predict_loan] (app.py, lines 21-91) and of the
    module globals it reads (lines 14-17).  Python values are modelled as the
    code has them: categorical arguments are strings, raw numeric arguments are
    ints or floats, floats carry their kind (Python float, numpy float32 or
    float64), dict literals are association lists in insertion order,
    exceptions are values of [exn], and the module globals are an explicit
    store threaded through a state-and-exception monad. *)

From Stdlib Require Import ZArith List String Ascii Bool Lia.
From Stdlib Require Import Permutation DecimalString SpecFloat.
From Stdlib Require DecimalPos.
Import ListNotations.

Local Open Scope string_scope.
Local Open Scope Z_scope.

(** ** Python exceptions

    [exn] holds exceptions of class Exception, the ones [except Exception]
    catches; SystemExit, KeyboardInterrupt and GeneratorExit are not modelled. *)

Inductive exn : Type :=
| KeyError (missing : list string)   (* dict / column lookup miss *)
| IndexError (index size : nat)      (* numpy indexing out of bounds *)
| ValueError (msg : string)          (* pandas shape check *)
| Raised (cls msg : string).         (* any other Exception of the artifact *)

Inductive result (A : Type) : Type :=
| Ok (a : A)
| Exc (e : exn).
Arguments Ok {A} a.
Arguments Exc {A} e.

Definition string_of_nat (n : nat) : string :=
  NilZero.string_of_uint (Nat.to_uint n).

(** [repr] of a string key that holds no quote or escape. *)
Definition repr (s : string) : string := "'" ++ s ++ "'".

(** [str(e)], the text the handler of line 91 interpolates. *)
Definition exn_str (e : exn) : string :=
  match e with
  | KeyError ks => String.concat ", " (map repr ks)
  | IndexError i n =>
      "index " ++ string_of_nat i ++ " is out of bounds for axis 0 with size "
               ++ string_of_nat n
  | ValueError msg => msg
  | Raised _ msg => msg
  end.

(** ** State and exception monad over the module globals *)

Module PyMonad.
Section WithStore.
Variable store : Type.

Definition M (A : Type) : Type := store -> result A * store.

Definition ret {A} (a : A) : M A := fun s => (Ok a, s).

Definition bind {A B} (c : M A) (k : A -> M B) : M B :=
  fun s => match c s with
           | (Ok a, s') => k a s'
           | (Exc e, s') => (Exc e, s')
           end.

Definition raise {A} (e : exn) : M A := fun s => (Exc e, s).

Definition lift {A} (r : result A) : M A := fun s => (r, s).

Definition get : M store := fun s => (Ok s, s).

Definition put (s' : store) : M unit := fun _ => (Ok tt, s').

Definition gets {A} (f : store -> A) : M A := fun s => (Ok (f s), s).

(** [try: body except Exception as e: handler e], over the exceptions of
    class Exception that [exn] holds; writes made by the body before it
    raised are kept, as in Python. *)
Definition try_except {A} (body : M A) (handler : exn -> M A) : M A :=
  fun s => match body s with
           | (Ok a, s') => (Ok a, s')
           | (Exc e, s') => handler e s'
           end.
End WithStore.
End PyMonad.

Arguments PyMonad.ret {store A} a.
Arguments PyMonad.bind {store A B} c k.
Arguments PyMonad.raise {store A} e.
Arguments PyMonad.lift {store A} r.
Arguments PyMonad.get {store}.
Arguments PyMonad.put {store} s'.
Arguments PyMonad.gets {store A} f.
Arguments PyMonad.try_except {store A} body handler.

Declare Scope py_scope.
Delimit Scope py_scope with py.
Notation "x <- c ;; k" := (PyMonad.bind c (fun x => k))
  (at level 100, c at next level, right associativity) : py_scope.

(** ** Numbers and floats *)

(** Where a float comes from decides the arithmetic it takes part in: a Python
    float (binary64), a numpy float32 scalar or a numpy float64 scalar. *)
Inductive fkind : Type := py_float | np_float32 | np_float64.

Record float : Type := mkfloat { f_kind : fkind; f_val : spec_float }.

Definition prec : Z := 53.
Definition emax : Z := 1024.

Definition kind_prec (k : fkind) : Z :=
  match k with np_float32 => 24 | _ => 53 end.

Definition kind_emax (k : fkind) : Z :=
  match k with np_float32 => 128 | _ => 1024 end.

(** numpy's result type of a binary operation: float64 wins over float32, and
    a Python scalar takes the type of the numpy operand. *)
Definition result_kind (k1 k2 : fkind) : fkind :=
  match k1, k2 with
  | np_float64, _ | _, np_float64 => np_float64
  | np_float32, _ | _, np_float32 => np_float32
  | py_float, py_float => py_float
  end.

(** A value converted to the format of kind [k], round to nearest even. *)
Definition cast (k : fkind) (x : spec_float) : spec_float :=
  match x with
  | S754_finite s m e => binary_round (kind_prec k) (kind_emax k) s m e
  | _ => x
  end.

(** An operand as the operation of kind [k] reads it: as it is when it has
    that format already, converted otherwise. *)
Definition operand (k : fkind) (x : float) : spec_float :=
  if kind_prec (f_kind x) =? kind_prec k then f_val x else cast k (f_val x).

(** Float multiplication in the result type, round to nearest even. *)
Definition fmul (x y : float) : float :=
  let k := result_kind (f_kind x) (f_kind y) in
  mkfloat k (SFmul (kind_prec k) (kind_emax k) (operand k x) (operand k y)).

(** The float a Python int is converted to before a float operation. *)
Definition float_of_int (z : Z) : float :=
  mkfloat py_float (binary_normalize prec emax z 0 false).

(** A raw numeric argument: gr.Number hands over an int or a float. *)
Inductive number : Type :=
| NInt (z : Z)
| NFloat (x : float).

(** ** Formatting: [f"{x:.2f}"] *)

(** n / d rounded to the nearest integer, ties to even (0 <= n, 0 < d). *)
Definition round_half_even (n d : Z) : Z :=
  let q := n / d in
  let r := n mod d in
  if 2 * r <? d then q
  else if d <? 2 * r then q + 1
  else if Z.even q then q else q + 1.

(** The magnitude m * 2^e in hundredths, correctly rounded. *)
Definition hundredths (m : positive) (e : Z) : Z :=
  if 0 <=? e then 100 * Zpos m * 2 ^ e
  else round_half_even (100 * Zpos m) (2 ^ (- e)).

Definition string_of_Z (z : Z) : string :=
  NilZero.string_of_uint (N.to_uint (Z.to_N z)).

Definition two_digits (z : Z) : string :=
  string_of_Z (z / 10) ++ string_of_Z (z mod 10).

(** A count of hundredths printed with two decimals. *)
Definition fixed2 (neg : bool) (n : Z) : string :=
  (if neg then "-" else "") ++ string_of_Z (n / 100) ++ "." ++ two_digits (n mod 100).

Definition format_2f (x : float) : string :=
  match f_val x with
  | S754_nan => "nan"
  | S754_infinity s => if s then "-inf" else "inf"
  | S754_zero s => fixed2 s 0
  | S754_finite s m e => fixed2 s (hundredths m e)
  end.

(** ** Frames and the model artifact *)

(** A Python dict with string keys, in insertion order. *)
Definition dict (V : Type) : Type := list (string * V).

Fixpoint dict_get {V} (d : dict V) (k : string) : option V :=
  match d with
  | [] => None
  | (k', v) :: d' => if String.eqb k k' then Some v else dict_get d' k
  end.

Definition keys {V} (d : dict V) : list string := map fst d.

(** [d[k]]: the value, or KeyError. *)
Definition getitem {V} (d : dict V) (k : string) : result V :=
  match dict_get d k with
  | Some v => Ok v
  | None => Exc (KeyError [k])
  end.

(** A one-row DataFrame: its columns in order, each with the row's cell. *)
Definition frame : Type := list (string * number).

Definition columns (f : frame) : list string := map fst f.

(** A DataFrame of floats: column labels and rows. *)
Record fframe : Type := { ff_columns : list string; ff_rows : list (list float) }.

(** A 2-d array: its second dimension and its rows (a zero-row array still
    has a width). *)
Record ndarray : Type := { nd_width : nat; nd_rows : list (list float) }.

Record Scaler : Type := { transform : frame -> result ndarray }.

Record Classifier : Type := {
  predict : fframe -> result (list Z);
  predict_proba : fframe -> result (list (list float))
}.

(** The unpickled bundle, [model_data] of line 14. *)
Record ModelArtifact : Type := {
  md_model : Classifier;
  md_scaler : Scaler;
  md_feature_names : list string
}.

(** The module globals after lines 14-17. *)
Record globals : Type := {
  model_data : ModelArtifact;
  model : Classifier;
  scaler : Scaler;
  feature_names : list string
}.

Definition load (bundle : ModelArtifact) : globals :=
  {| model_data := bundle;
     model := md_model bundle;
     scaler := md_scaler bundle;
     feature_names := md_feature_names bundle |}.


(** ** Library operations used by [predict_loan] *)

(** [pd.DataFrame([d])]: one row, the columns in the dict's order. *)
Definition DataFrame_of_row (d : dict number) : frame := d.

Fixpoint project (row : frame) (names : list string) : option frame :=
  match names with
  | [] => Some []
  | n :: ns =>
      match dict_get row n, project row ns with
      | Some v, Some f => Some ((n, v) :: f)
      | _, _ => None
      end
  end.

(** The labels of a list, each once, in the order of their first occurrence
    ([seen] holds the labels met so far). *)
Fixpoint unique (seen l : list string) : list string :=
  match l with
  | [] => []
  | x :: xs =>
      if existsb (String.eqb x) seen then unique seen xs
      else x :: unique (x :: seen) xs
  end.

(** The labels the KeyError of a failed selection names: the whole key when
    none of its labels is a column, else the labels that are no column, each
    once. *)
Definition missing_columns (row : frame) (names : list string) : list string :=
  let missing :=
    filter (fun n => match dict_get row n with None => true | Some _ => false end)
           names in
  if Nat.eqb (List.length missing) (List.length names) then names
  else unique [] missing.

(** [df[names]]: the named columns in the order of [names], or KeyError when
    a name is no column of [df]. *)
Definition select_columns (df : frame) (names : list string) : result frame :=
  match project df names with
  | Some f => Ok f
  | None => Exc (KeyError (missing_columns df names))
  end.

Definition shape_str (r c : nat) : string :=
  "(" ++ string_of_nat r ++ ", " ++ string_of_nat c ++ ")".

(** [pd.DataFrame(data, columns=cols)] on a 2-d array: its width has to be
    the number of labels (also when it has no row). *)
Definition DataFrame (data : ndarray) (cols : list string) : result fframe :=
  if Nat.eqb (nd_width data) (List.length cols)
     && forallb (fun r => Nat.eqb (List.length r) (List.length cols)) (nd_rows data)
  then Ok {| ff_columns := cols; ff_rows := nd_rows data |}
  else Exc (ValueError ("Shape of passed values is "
                          ++ shape_str (List.length (nd_rows data)) (nd_width data)
                          ++ ", indices imply "
                          ++ shape_str (List.length (nd_rows data)) (List.length cols))).

(** [xs[i]] on an array. *)
Definition index {A} (xs : list A) (i : nat) : result A :=
  match nth_error xs i with
  | Some x => Ok x
  | None => Exc (IndexError i (List.length xs))
  end.

(** ** The request: arguments of [predict_loan] (line 21) *)

Record RawApplication : Type := {
  age : number;
  gender : string;
  education : string;
  income : number;
  emp_exp : number;
  home_ownership : string;
  loan_amount : number;
  loan_intent : string;
  interest_rate : number;
  loan_percent_income : number;
  credit_history : number;
  credit_score : number;
  previous_defaults : string
}.

(** ** Categorical encoder (lines 25-46) *)

Definition gender_map : dict Z := [("female", 0); ("male", 1)].

Definition education_map : dict Z :=
  [("High School", 0); ("Associate", 1); ("Bachelor", 2); ("Master", 3)].

Definition home_map : dict Z := [("RENT", 0); ("OWN", 1); ("MORTGAGE", 2); ("OTHER", 3)].

Definition defaults_map : dict Z := [("No", 0); ("Yes", 1)].

(** [1 if loan_intent == name else 0] *)
Definition intent_flag (loan_intent name : string) : Z :=
  if String.eqb loan_intent name then 1 else 0.

(** ** Feature vector assembler (lines 49-67) *)

Definition build_input_dict (a : RawApplication)
    (gender_encoded education_encoded home_encoded defaults_encoded : Z)
    (intent_education intent_homeimprovement intent_medical
     intent_personal intent_venture : Z) : dict number :=
  [ ("person_age", age a);
    ("person_gender", NInt gender_encoded);
    ("person_education", NInt education_encoded);
    ("person_income", income a);
    ("person_emp_exp", emp_exp a);
    ("person_home_ownership", NInt home_encoded);
    ("loan_amnt", loan_amount a);
    ("loan_int_rate", interest_rate a);
    ("loan_percent_income", loan_percent_income a);
    ("cb_person_cred_hist_length", credit_history a);
    ("credit_score", credit_score a);
    ("previous_loan_defaults_on_file", NInt defaults_encoded);
    ("loan_intent_EDUCATION", NInt intent_education);
    ("loan_intent_HOMEIMPROVEMENT", NInt intent_homeimprovement);
    ("loan_intent_MEDICAL", NInt intent_medical);
    ("loan_intent_PERSONAL", NInt intent_personal);
    ("loan_intent_VENTURE", NInt intent_venture) ].

(** Lines 25-67: the encoded record, or the KeyError of the first lookup that
    misses. *)
Definition input_dict_of (a : RawApplication) : result (dict number) :=
  match getitem gender_map (gender a) with
  | Exc e => Exc e
  | Ok gender_encoded =>
  match getitem education_map (education a) with
  | Exc e => Exc e
  | Ok education_encoded =>
  match getitem home_map (home_ownership a) with
  | Exc e => Exc e
  | Ok home_encoded =>
  match getitem defaults_map (previous_defaults a) with
  | Exc e => Exc e
  | Ok defaults_encoded =>
      let intent_education := intent_flag (loan_intent a) "EDUCATION" in
      let intent_homeimprovement := intent_flag (loan_intent a) "HOMEIMPROVEMENT" in
      let intent_medical := intent_flag (loan_intent a) "MEDICAL" in
      let intent_personal := intent_flag (loan_intent a) "PERSONAL" in
      let intent_venture := intent_flag (loan_intent a) "VENTURE" in
      Ok (build_input_dict a gender_encoded education_encoded home_encoded
            defaults_encoded intent_education intent_homeimprovement
            intent_medical intent_personal intent_venture)
  end end end end.

(** ** Inference adapter (lines 69-91) *)

Definition nl : string := String (ascii_of_nat 10) EmptyString.

Definition approved_headline : string := "✅ Loan Approved".
Definition rejected_headline : string := "❌ Loan Rejected (High Default Risk)".
Definition error_prefix : string := "❌ Error: ".

(** [f"{result}\n\nConfidence: {confidence:.2f}%"] *)
Definition verdict_text (result : string) (confidence : float) : string :=
  result ++ nl ++ nl ++ "Confidence: " ++ format_2f confidence ++ "%".

Import PyMonad.
Local Open Scope py_scope.

(** The body of the [try] (lines 73-88). *)
Definition try_body (input_data : frame) : M globals string :=
  sc <- gets scaler ;;
  input_scaled <- lift (transform sc input_data) ;;
  names <- gets feature_names ;;
  input_scaled_df <- lift (DataFrame input_scaled names) ;;
  mdl <- gets model ;;
  prediction <- lift (predict mdl input_scaled_df) ;;
  probability <- lift (predict_proba mdl input_scaled_df) ;;
  label <- lift (index prediction 0) ;;
  if label =? 0 then
    row <- lift (index probability 0) ;;
    p <- lift (index row 0) ;;
    let confidence := fmul p (float_of_int 100) in
    ret (verdict_text approved_headline confidence)
  else
    row <- lift (index probability 0) ;;
    p <- lift (index row 1) ;;
    let confidence := fmul p (float_of_int 100) in
    ret (verdict_text rejected_headline confidence).

(** The handler of line 90-91. *)
Definition on_exception (e : exn) : M globals string :=
  ret (error_prefix ++ exn_str e).

Definition predict_loan (a : RawApplication) : M globals string :=
  input_dict <- lift (input_dict_of a) ;;
  names <- gets feature_names ;;
  input_data <- lift (select_columns (DataFrame_of_row input_dict) names) ;;
  try_except (try_body input_data) on_exception.

(** ** Reference data: key set, domains, sample requests and artifacts *)

(** The keys of the dict literal of lines 49-67, in its order. *)
Definition FEATURE_KEYS : list string :=
  [ "person_age"; "person_gender"; "person_education"; "person_income";
    "person_emp_exp"; "person_home_ownership"; "loan_amnt"; "loan_int_rate";
    "loan_percent_income"; "cb_person_cred_hist_length"; "credit_score";
    "previous_loan_defaults_on_file"; "loan_intent_EDUCATION";
    "loan_intent_HOMEIMPROVEMENT"; "loan_intent_MEDICAL";
    "loan_intent_PERSONAL"; "loan_intent_VENTURE" ].

(** The five declared intents (the Dropdown choices of line 106). *)
Definition intent_names : list string :=
  ["EDUCATION"; "HOMEIMPROVEMENT"; "MEDICAL"; "PERSONAL"; "VENTURE"].

Definition intent_key (name : string) : string := "loan_intent_" ++ name.

(** The one-hot block of an assembled record, in the order of [intent_names]. *)
Definition intent_block (d : dict number) : list (option number) :=
  map (fun n => dict_get d (intent_key n)) intent_names.

Definition is_one (c : option number) : bool :=
  match c with Some (NInt 1) => true | _ => false end.

Definition is_zero (c : option number) : bool :=
  match c with Some (NInt 0) => true | _ => false end.

(** The four dict-encoded fields hold a key of their map. *)
Definition valid_enums (a : RawApplication) : Prop :=
  In (gender a) (keys gender_map) /\
  In (education a) (keys education_map) /\
  In (home_ownership a) (keys home_map) /\
  In (previous_defaults a) (keys defaults_map).

(** Every enum field is in its declared domain. *)
Definition valid_application (a : RawApplication) : Prop :=
  valid_enums a /\ In (loan_intent a) intent_names.

Definition same_set (l1 l2 : list string) : Prop :=
  forall k, In k l1 <-> In k l2.

(** Substring test, for reading a headline. *)
Fixpoint contains (needle hay : string) : bool :=
  if String.prefix needle hay then true
  else match hay with
       | EmptyString => false
       | String _ rest => contains needle rest
       end.

Definition error_prefixed (s : string) : Prop :=
  exists msg, s = error_prefix ++ msg.

(** Binary64 constants for the samples. *)
Definition f_10_0 : float := float_of_int 10.
Definition f_0_3 : float :=
  mkfloat py_float (S754_finite false 5404319552844595 (-54)).
Definition f_0_875 : float :=
  mkfloat np_float64 (S754_finite false 7881299347898368 (-53)).
Definition f_0_125 : float :=
  mkfloat np_float64 (S754_finite false 4503599627370496 (-55)).

(** The first example row of the interface (line 118). *)
Definition example_row : RawApplication :=
  {| age := NInt 30; gender := "male"; education := "Bachelor";
     income := NInt 50000; emp_exp := NInt 5; home_ownership := "RENT";
     loan_amount := NInt 10000; loan_intent := "PERSONAL";
     interest_rate := NFloat f_10_0; loan_percent_income := NFloat f_0_3;
     credit_history := NInt 5; credit_score := NInt 650;
     previous_defaults := "No" |}.

Definition with_education (a : RawApplication) (s : string) : RawApplication :=
  {| age := age a; gender := gender a; education := s; income := income a;
     emp_exp := emp_exp a; home_ownership := home_ownership a;
     loan_amount := loan_amount a; loan_intent := loan_intent a;
     interest_rate := interest_rate a;
     loan_percent_income := loan_percent_income a;
     credit_history := credit_history a; credit_score := credit_score a;
     previous_defaults := previous_defaults a |}.

Definition with_intent (a : RawApplication) (s : string) : RawApplication :=
  {| age := age a; gender := gender a; education := education a;
     income := income a; emp_exp := emp_exp a;
     home_ownership := home_ownership a; loan_amount := loan_amount a;
     loan_intent := s; interest_rate := interest_rate a;
     loan_percent_income := loan_percent_income a;
     credit_history := credit_history a; credit_score := credit_score a;
     previous_defaults := previous_defaults a |}.

(** The float64 cell an array holds for a number. *)
Definition float_of_number (x : number) : float :=
  mkfloat np_float64
    (f_val match x with
           | NInt z => float_of_int z
           | NFloat f => f
           end).

(** A scaler that passes every cell through unchanged. *)
Definition identity_scaler : Scaler :=
  {| transform := fun f =>
       Ok {| nd_width := List.length f;
             nd_rows := [map (fun c => float_of_number (snd c)) f] |} |}.

(** A scaler that rejects every input. *)
Definition failing_scaler : Scaler :=
  {| transform := fun _ => Exc (Raised "ValueError" "Input contains NaN.") |}.

(** A classifier that answers one fixed label with probabilities 0.875 and
    0.125 for the answered and the other class. *)
Definition constant_model (label : Z) : Classifier :=
  {| predict := fun _ => Ok [label];
     predict_proba := fun _ =>
       Ok [if label =? 0 then [f_0_875; f_0_125] else [f_0_125; f_0_875]] |}.

Definition feature_count_error : exn :=
  Raised "ValueError" "X has 16 features, but 17 were expected.".

Definition failing_model : Classifier :=
  {| predict := fun _ => Exc feature_count_error;
     predict_proba := fun _ => Exc feature_count_error |}.

Definition artifact (m : Classifier) (s : Scaler) (names : list string) : ModelArtifact :=
  {| md_model := m; md_scaler := s; md_feature_names := names |}.

(** A bundle whose feature list is the 17 keys, and one that leaves
    credit_score out. *)
Definition sample_artifact : ModelArtifact :=
  artifact (constant_model 0) identity_scaler FEATURE_KEYS.

Definition names_without_credit_score : list string :=
  filter (fun n => negb (String.eqb n "credit_score")) FEATURE_KEYS.

Definition skewed_artifact : ModelArtifact :=
  artifact (constant_model 0) identity_scaler names_without_credit_score.

(** The interface calls [predict_loan] once per submitted request, one
    request after another on the same module globals. *)
Fixpoint serve (reqs : list RawApplication) (g : globals)
  : list (result string) * globals :=
  match reqs with
  | [] => ([], g)
  | a :: rest =>
      let (r, g1) := predict_loan a g in
      let (rs, g2) := serve rest g1 in
      (r :: rs, g2)
  end.

Definition qualifier : string := "High Default Risk".

(** ** The interface declaration (lines 94-122) *)

(** A positional argument handed to [fn]: a string or a number. *)
Inductive arg : Type :=
| AStr (s : string)
| ANum (x : number).

(** The input components, with the keyword arguments the source gives them. *)
Inductive component : Type :=
| Number (label : string) (value : number) (minimum maximum : option Z)
         (step : option number)
| Dropdown (choices : list string) (label : string) (value : string).

(** The float a decimal literal n / 10^k denotes (n and 10^k exact). *)
Definition float_of_decimal (n : Z) (k : Z) : float :=
  mkfloat py_float
    (SFdiv prec emax (f_val (float_of_int n)) (f_val (float_of_int (10 ^ k)))).

Definition demo_inputs : list component :=
  [ Number "Age" (NInt 30) (Some 18) (Some 100) None;
    Dropdown ["male"; "female"] "Gender" "male";
    Dropdown ["High School"; "Associate"; "Bachelor"; "Master"]
             "Education" "Bachelor";
    Number "Annual Income ($)" (NInt 50000) (Some 0) None None;
    Number "Employment Experience (years)" (NInt 5) (Some 0) (Some 50) None;
    Dropdown ["RENT"; "OWN"; "MORTGAGE"; "OTHER"] "Home Ownership" "RENT";
    Number "Loan Amount ($)" (NInt 10000) (Some 500) (Some 50000) None;
    Dropdown ["EDUCATION"; "HOMEIMPROVEMENT"; "MEDICAL"; "PERSONAL"; "VENTURE"]
             "Loan Intent" "PERSONAL";
    Number "Interest Rate (%)" (NFloat (float_of_decimal 100 1)) (Some 5) (Some 25)
           None;
    Number "Loan as % of Income" (NFloat (float_of_decimal 3 1)) (Some 0) (Some 1)
           (Some (NFloat (float_of_decimal 1 2)));
    Number "Credit History Length (years)" (NInt 5) (Some 0) (Some 30) None;
    Number "Credit Score" (NInt 650) (Some 300) (Some 850) None;
    Dropdown ["Yes"; "No"] "Previous Loan Defaults" "No" ].

Definition demo_examples : list (list arg) :=
  [ [ ANum (NInt 30); AStr "male"; AStr "Bachelor"; ANum (NInt 50000);
      ANum (NInt 5); AStr "RENT"; ANum (NInt 10000); AStr "PERSONAL";
      ANum (NFloat (float_of_decimal 100 1)); ANum (NFloat (float_of_decimal 3 1));
      ANum (NInt 5); ANum (NInt 650); AStr "No" ];
    [ ANum (NInt 45); AStr "female"; AStr "Master"; ANum (NInt 80000);
      ANum (NInt 15); AStr "OWN"; ANum (NInt 25000); AStr "EDUCATION";
      ANum (NFloat (float_of_decimal 85 1)); ANum (NFloat (float_of_decimal 25 2));
      ANum (NInt 10); ANum (NInt 720); AStr "No" ];
    [ ANum (NInt 25); AStr "male"; AStr "High School"; ANum (NInt 25000);
      ANum (NInt 2); AStr "RENT"; ANum (NInt 15000); AStr "VENTURE";
      ANum (NFloat (float_of_decimal 180 1)); ANum (NFloat (float_of_decimal 6 1));
      ANum (NInt 2); ANum (NInt 550); AStr "Yes" ] ].

(** The value a component shows before the user changes it. *)
Definition default_arg (c : component) : arg :=
  match c with
  | Number _ value _ _ _ => ANum value
  | Dropdown _ _ value => AStr value
  end.

(** Exact comparison of a float with an int; a NaN compares with nothing. *)
Definition float_compare_Z (x : float) (z : Z) : option comparison :=
  match f_val x with
  | S754_nan => None
  | S754_infinity s => Some (if s then Lt else Gt)
  | S754_zero _ => Some (0 ?= z)
  | S754_finite s m e =>
      let v := if s then Zneg m else Zpos m in
      Some (if 0 <=? e then (v * 2 ^ e ?= z) else (v ?= z * 2 ^ (- e)))
  end.

Definition number_compare_Z (x : number) (z : Z) : option comparison :=
  match x with
  | NInt n => Some (n ?= z)
  | NFloat f => float_compare_Z f z
  end.

(** The bounds test of a Number: a value below the minimum or above the
    maximum is refused; a NaN is below and above nothing. *)
Definition within (minimum maximum : option Z) (x : number) : bool :=
  match minimum with
  | None => true
  | Some lo => match number_compare_Z x lo with
               | Some Lt => false
               | _ => true
               end
  end &&
  match maximum with
  | None => true
  | Some hi => match number_compare_Z x hi with
               | Some Gt => false
               | _ => true
               end
  end.

(** A value the component lets through: one of the choices of a Dropdown, a
    number that passes the bounds test of a Number. *)
Definition accepts (c : component) (v : arg) : Prop :=
  match c, v with
  | Number _ _ minimum maximum _, ANum x => within minimum maximum x = true
  | Dropdown choices _ _, AStr s => In s choices
  | _, _ => False
  end.

Definition choices_at (i : nat) : list string :=
  match nth_error demo_inputs i with
  | Some (Dropdown choices _ _) => choices
  | _ => []
  end.

Definition as_num (v : arg) : option number :=
  match v with ANum x => Some x | AStr _ => None end.

Definition as_str (v : arg) : option string :=
  match v with AStr s => Some s | ANum _ => None end.

Definition opt_bind {A B} (o : option A) (k : A -> option B) : option B :=
  match o with Some a => k a | None => None end.

(** The 13 positional arguments bound to the parameters of line 21-23, in
    order; numbers where the function passes a number on, strings where it
    looks the value up or compares it. *)
Definition bind_args (args : list arg) : option RawApplication :=
  match args with
  | [a1; a2; a3; a4; a5; a6; a7; a8; a9; a10; a11; a12; a13] =>
      opt_bind (as_num a1) (fun age =>
      opt_bind (as_str a2) (fun gender =>
      opt_bind (as_str a3) (fun education =>
      opt_bind (as_num a4) (fun income =>
      opt_bind (as_num a5) (fun emp_exp =>
      opt_bind (as_str a6) (fun home_ownership =>
      opt_bind (as_num a7) (fun loan_amount =>
      opt_bind (as_str a8) (fun loan_intent =>
      opt_bind (as_num a9) (fun interest_rate =>
      opt_bind (as_num a10) (fun loan_percent_income =>
      opt_bind (as_num a11) (fun credit_history =>
      opt_bind (as_num a12) (fun credit_score =>
      opt_bind (as_str a13) (fun previous_defaults =>
      Some {| age := age; gender := gender; education := education;
              income := income; emp_exp := emp_exp;
              home_ownership := home_ownership; loan_amount := loan_amount;
              loan_intent := loan_intent; interest_rate := interest_rate;
              loan_percent_income := loan_percent_income;
              credit_history := credit_history; credit_score := credit_score;
              previous_defaults := previous_defaults |})))))))))))))
  | _ => None
  end.

Definition with_credit_score (a : RawApplication) (x : number) : RawApplication :=
  {| age := age a; gender := gender a; education := education a;
     income := income a; emp_exp := emp_exp a;
     home_ownership := home_ownership a; loan_amount := loan_amount a;
     loan_intent := loan_intent a; interest_rate := interest_rate a;
     loan_percent_income := loan_percent_income a;
     credit_history := credit_history a; credit_score := x;
     previous_defaults := previous_defaults a |}.

(** The declared names that are no key of the assembled record. *)
Definition unknown_names (names : list string) : list string :=
  let unknown :=
    filter (fun n => negb (existsb (String.eqb n) FEATURE_KEYS)) names in
  if Nat.eqb (List.length unknown) (List.length names) then names
  else unique [] unknown.

(** ** Reading a verdict back, independently of how it is printed *)






(** A classifier that answers one fixed label with float32 probabilities. *)
Definition float32_model (label : Z) (p0 p1 : spec_float) : Classifier :=
  {| predict := fun _ => Ok [label];
     predict_proba := fun _ =>
       Ok [[mkfloat np_float32 p0; mkfloat np_float32 p1]] |}.

(** * Properties *)

(** ** Dicts and column selection *)

Section DictFacts.
Context {V : Type}.
Implicit Types (d : dict V) (k : string).

Lemma dict_get_in_keys d k :
  In k (keys d) <-> exists v, dict_get d k = Some v.
Proof.
  induction d as [|[k' v'] d IH]; simpl.
  - split; [tauto | intros [v Hv]; discriminate].
  - destruct (String.eqb_spec k k') as [->|Hne].
    + split; eauto.
    + rewrite <- IH. split; [intros [Heq|Hin] | intros Hin]; auto.
      congruence.
Qed.

Lemma dict_get_none d k :
  dict_get d k = None <-> ~ In k (keys d).
Proof.
  rewrite dict_get_in_keys. destruct (dict_get d k) as [v|].
  - split; [discriminate | intros H; exfalso; eauto].
  - split; [intros _ [v Hv]; discriminate | reflexivity].
Qed.

Lemma getitem_ok d k v :
  getitem d k = Ok v <-> dict_get d k = Some v.
Proof.
  unfold getitem. destruct (dict_get d k); split; congruence.
Qed.

Lemma getitem_total d k :
  In k (keys d) -> exists v, getitem d k = Ok v.
Proof.
  intros [v Hv]%dict_get_in_keys. exists v. now apply getitem_ok.
Qed.
End DictFacts.

Lemma unique_In seen l n :
  In n (unique seen l) <-> In n l /\ ~ In n seen.
Proof.
  revert seen. induction l as [|x xs IH]; intros seen; simpl; [tauto|].
  destruct (existsb (String.eqb x) seen) eqn:E.
  - apply existsb_exists in E as (y & Hy & Heq).
    apply String.eqb_eq in Heq. subst y. rewrite IH.
    intuition (subst; tauto).
  - assert (Hx : ~ In x seen).
    { intros Hin. assert (existsb (String.eqb x) seen = true).
      { apply existsb_exists. exists x. split; [exact Hin | apply String.eqb_refl]. }
      congruence. }
    simpl. rewrite IH. simpl.
    destruct (string_dec x n) as [->|Hne]; [tauto|]. intuition congruence.
Qed.

Lemma unique_first_NoDup seen l : NoDup (unique seen l).
Proof.
  revert seen. induction l as [|x xs IH]; intros seen; simpl; [constructor|].
  destruct (existsb (String.eqb x) seen); [apply IH|].
  constructor; [|apply IH]. rewrite unique_In. simpl. tauto.
Qed.

Lemma filter_all_length {A} (p : A -> bool) (l : list A) :
  List.length (filter p l) = List.length l -> filter p l = l.
Proof.
  induction l as [|x xs IH]; simpl; [reflexivity|].
  pose proof (filter_length_le p xs) as Hle.
  destruct (p x); simpl; intros H; [f_equal; apply IH; lia | lia].
Qed.

(** Membership in the labels a failed selection reports. *)
Lemma reported_In (p : string -> bool) names n :
  In n (if Nat.eqb (List.length (filter p names)) (List.length names)
        then names else unique [] (filter p names)) <->
  In n names /\ p n = true.
Proof.
  destruct (Nat.eqb_spec (List.length (filter p names)) (List.length names))
    as [Heq|_].
  - rewrite <- (filter_all_length p names Heq) at 1. apply filter_In.
  - rewrite unique_In, filter_In. simpl. tauto.
Qed.

Lemma missing_columns_spec df names n :
  In n (missing_columns df names) <-> In n names /\ ~ In n (columns df).
Proof.
  unfold missing_columns. cbv zeta. rewrite reported_In.
  change (columns df) with (keys df). rewrite <- dict_get_none.
  destruct (dict_get df n); intuition congruence.
Qed.

Lemma project_columns row names f :
  project row names = Some f -> columns f = names.
Proof.
  revert f. induction names as [|n ns IH]; simpl; intros f H.
  - now inversion H.
  - destruct (dict_get row n) as [v|]; [|discriminate].
    destruct (project row ns) as [f'|]; [|discriminate].
    inversion H; subst. simpl. f_equal. now apply IH.
Qed.

(** Every selected cell is the cell the record holds under that name. *)
Lemma project_cells row names f :
  project row names = Some f ->
  forall n v, In (n, v) f -> dict_get row n = Some v.
Proof.
  revert f. induction names as [|n ns IH]; simpl; intros f H n' v' Hin.
  - inversion H; subst. destruct Hin.
  - destruct (dict_get row n) as [v|] eqn:Hn; [|discriminate].
    destruct (project row ns) as [f'|]; [|discriminate].
    inversion H; subst. destruct Hin as [Heq|Hin].
    + now inversion Heq; subst.
    + eapply IH; eauto.
Qed.

Lemma project_some row names :
  incl names (columns row) -> exists f, project row names = Some f.
Proof.
  induction names as [|n ns IH]; simpl; intros Hincl.
  - eauto.
  - destruct (proj1 (dict_get_in_keys row n)) as [v Hv].
    { apply Hincl. now left. }
    destruct IH as [f Hf].
    { intros x Hx. apply Hincl. now right. }
    rewrite Hv, Hf. eauto.
Qed.

Lemma project_none row names :
  project row names = None ->
  exists n, In n names /\ ~ In n (columns row) /\ In n (missing_columns row names).
Proof.
  intros H.
  assert (Hn : exists n, In n names /\ dict_get row n = None).
  { induction names as [|n ns IH]; simpl in H; [discriminate|].
    destruct (dict_get row n) as [v|] eqn:Hn.
    - destruct (project row ns) as [f|]; [discriminate|].
      destruct (IH eq_refl) as (x & Hx & Hnone). exists x. simpl. auto.
    - exists n. simpl. auto. }
  destruct Hn as (n & Hin & Hnone). apply dict_get_none in Hnone.
  exists n. split; [exact Hin|]. split; [exact Hnone|].
  apply missing_columns_spec. auto.
Qed.

Lemma select_columns_ok df names :
  incl names (columns df) ->
  exists f, select_columns df names = Ok f /\ columns f = names /\
            forall n v, In (n, v) f -> dict_get df n = Some v.
Proof.
  intros Hincl. destruct (project_some df names Hincl) as [f Hf].
  exists f. unfold select_columns. rewrite Hf.
  eauto using project_columns, project_cells.
Qed.

Lemma select_columns_missing df names :
  ~ incl names (columns df) ->
  select_columns df names = Exc (KeyError (missing_columns df names)) /\
  exists n, In n names /\ ~ In n (columns df) /\ In n (missing_columns df names).
Proof.
  intros Hnot. unfold select_columns.
  destruct (project df names) as [f|] eqn:Hp.
  - exfalso. apply Hnot. intros n Hn.
    rewrite <- (project_columns _ _ _ Hp) in Hn.
    apply in_map_iff in Hn as [[n' v] [Heq Hin]]. simpl in Heq. subst n'.
    apply dict_get_in_keys. eauto using project_cells.
  - split; [reflexivity | now apply project_none].
Qed.

(** ** The store is only read *)

Lemma try_body_store f g : snd (try_body f g) = g.
Proof.
  unfold try_body, bind, gets, lift, ret.
  destruct (transform (scaler g) f) as [scaled|e]; [|reflexivity].
  destruct (DataFrame scaled (feature_names g)) as [df|e]; [|reflexivity].
  destruct (predict (model g) df) as [prediction|e]; [|reflexivity].
  destruct (predict_proba (model g) df) as [probability|e]; [|reflexivity].
  destruct (index prediction 0) as [label|e]; [|reflexivity].
  destruct (label =? 0);
    (destruct (index probability 0) as [row|e]; [|reflexivity]);
    [destruct (index row 0) | destruct (index row 1)]; reflexivity.
Qed.

Lemma guarded_store f g : snd (try_except (try_body f) on_exception g) = g.
Proof.
  unfold try_except. pose proof (try_body_store f g) as H.
  destruct (try_body f g) as [[s|e] g']; simpl in *; auto.
Qed.

(** The guarded block always returns a string. *)
Lemma guarded_returns f g :
  exists s, try_except (try_body f) on_exception g = (Ok s, g).
Proof.
  unfold try_except, on_exception, ret. pose proof (try_body_store f g) as H.
  destruct (try_body f g) as [[s|e] g']; simpl in *; subst; eauto.
Qed.

Lemma predict_loan_store a g : snd (predict_loan a g) = g.
Proof.
  unfold predict_loan, bind, lift, gets.
  destruct (input_dict_of a) as [d|e]; [|reflexivity].
  destruct (select_columns (DataFrame_of_row d) (feature_names g)) as [f|e];
    [|reflexivity].
  apply guarded_store.
Qed.

(** ** Unfolding [predict_loan] along its three stages *)

Lemma predict_loan_encode_raises a g e :
  input_dict_of a = Exc e -> predict_loan a g = (Exc e, g).
Proof.
  intros H. unfold predict_loan, bind, lift. now rewrite H.
Qed.

Lemma predict_loan_select_raises a g d e :
  input_dict_of a = Ok d ->
  select_columns (DataFrame_of_row d) (feature_names g) = Exc e ->
  predict_loan a g = (Exc e, g).
Proof.
  intros H1 H2. unfold predict_loan, bind, lift, gets. now rewrite H1, H2.
Qed.

Lemma predict_loan_guarded a g d f :
  input_dict_of a = Ok d ->
  select_columns (DataFrame_of_row d) (feature_names g) = Ok f ->
  predict_loan a g = try_except (try_body f) on_exception g.
Proof.
  intros H1 H2. unfold predict_loan, bind, lift, gets. now rewrite H1, H2.
Qed.

(** ** Encoding succeeds on the declared domains *)

Lemma input_dict_of_valid a :
  valid_enums a ->
  exists ge ee he de,
    dict_get gender_map (gender a) = Some ge /\
    dict_get education_map (education a) = Some ee /\
    dict_get home_map (home_ownership a) = Some he /\
    dict_get defaults_map (previous_defaults a) = Some de /\
    input_dict_of a =
      Ok (build_input_dict a ge ee he de
            (intent_flag (loan_intent a) "EDUCATION")
            (intent_flag (loan_intent a) "HOMEIMPROVEMENT")
            (intent_flag (loan_intent a) "MEDICAL")
            (intent_flag (loan_intent a) "PERSONAL")
            (intent_flag (loan_intent a) "VENTURE")).
Proof.
  intros (Hg & He & Hh & Hd).
  apply dict_get_in_keys in Hg as [ge Hg], He as [ee He],
    Hh as [he Hh], Hd as [de Hd].
  exists ge, ee, he, de. unfold input_dict_of, getitem.
  rewrite Hg, He, Hh, Hd. auto.
Qed.

Lemma keys_build_input_dict a ge ee he de i1 i2 i3 i4 i5 :
  keys (build_input_dict a ge ee he de i1 i2 i3 i4 i5) = FEATURE_KEYS.
Proof. reflexivity. Qed.

Lemma input_dict_of_keys a d : input_dict_of a = Ok d -> keys d = FEATURE_KEYS.
Proof.
  unfold input_dict_of.
  destruct (getitem gender_map (gender a)); [|discriminate].
  destruct (getitem education_map (education a)); [|discriminate].
  destruct (getitem home_map (home_ownership a)); [|discriminate].
  destruct (getitem defaults_map (previous_defaults a)); [|discriminate].
  intros H. inversion H. reflexivity.
Qed.

Lemma FEATURE_KEYS_NoDup : NoDup FEATURE_KEYS.
Proof.
  unfold FEATURE_KEYS.
  repeat (constructor; [simpl; intros H;
    repeat (destruct H as [H|H]; [discriminate H|]); exact H |]).
  constructor.
Qed.

(** ** Categorical encoder *)

Ltac split_key k :=
  repeat match goal with
         | |- context [String.eqb k ?s] =>
             destruct (String.eqb_spec k s) as [->|?]; simpl
         end.

Ltac solve_map_domain :=
  let k := fresh "k" in
  let n := fresh "n" in
  let H := fresh "H" in
  intros k n; unfold getitem; simpl; split_key k;
  (split;
   [ intros H; inversion H; subst; tauto
   | intros H; decompose [or and] H; subst; congruence ]).

Lemma gender_map_spec k n :
  getitem gender_map k = Ok n <->
  (k = "female" /\ n = 0) \/ (k = "male" /\ n = 1).
Proof. revert k n. solve_map_domain. Qed.

Lemma education_map_spec k n :
  getitem education_map k = Ok n <->
  (k = "High School" /\ n = 0) \/ (k = "Associate" /\ n = 1) \/
  (k = "Bachelor" /\ n = 2) \/ (k = "Master" /\ n = 3).
Proof. revert k n. solve_map_domain. Qed.

Lemma home_map_spec k n :
  getitem home_map k = Ok n <->
  (k = "RENT" /\ n = 0) \/ (k = "OWN" /\ n = 1) \/
  (k = "MORTGAGE" /\ n = 2) \/ (k = "OTHER" /\ n = 3).
Proof. revert k n. solve_map_domain. Qed.

Lemma defaults_map_spec k n :
  getitem defaults_map k = Ok n <->
  (k = "No" /\ n = 0) \/ (k = "Yes" /\ n = 1).
Proof. revert k n. solve_map_domain. Qed.

(** What the assembled record holds under the four encoded names. *)
Lemma input_dict_of_codes a d :
  input_dict_of a = Ok d ->
  exists ge ee he de,
    getitem gender_map (gender a) = Ok ge /\
    getitem education_map (education a) = Ok ee /\
    getitem home_map (home_ownership a) = Ok he /\
    getitem defaults_map (previous_defaults a) = Ok de /\
    dict_get d "person_gender" = Some (NInt ge) /\
    dict_get d "person_education" = Some (NInt ee) /\
    dict_get d "person_home_ownership" = Some (NInt he) /\
    dict_get d "previous_loan_defaults_on_file" = Some (NInt de).
Proof.
  unfold input_dict_of.
  destruct (getitem gender_map (gender a)) as [ge|]; [|discriminate].
  destruct (getitem education_map (education a)) as [ee|]; [|discriminate].
  destruct (getitem home_map (home_ownership a)) as [he|]; [|discriminate].
  destruct (getitem defaults_map (previous_defaults a)) as [de|]; [|discriminate].
  intros H. inversion H; subst. exists ge, ee, he, de.
  repeat split; reflexivity.
Qed.

(** C4. For every valid value of a single-code categorical field the encoder
    returns the fixed code: gender female 0, male 1; education High School 0,
    Associate 1, Bachelor 2, Master 3; home ownership RENT 0, OWN 1,
    MORTGAGE 2, OTHER 3; previous defaults No 0, Yes 1.  The lookups succeed on
    these values only, and the assembled record carries the code under the
    field's feature name. *)
Theorem categorical_encoder_codes :
  (getitem gender_map "female" = Ok 0 /\ getitem gender_map "male" = Ok 1) /\
  (getitem education_map "High School" = Ok 0 /\
   getitem education_map "Associate" = Ok 1 /\
   getitem education_map "Bachelor" = Ok 2 /\
   getitem education_map "Master" = Ok 3) /\
  (getitem home_map "RENT" = Ok 0 /\ getitem home_map "OWN" = Ok 1 /\
   getitem home_map "MORTGAGE" = Ok 2 /\ getitem home_map "OTHER" = Ok 3) /\
  (getitem defaults_map "No" = Ok 0 /\ getitem defaults_map "Yes" = Ok 1) /\
  (forall k n,
      (getitem gender_map k = Ok n <->
       (k = "female" /\ n = 0) \/ (k = "male" /\ n = 1)) /\
      (getitem education_map k = Ok n <->
       (k = "High School" /\ n = 0) \/ (k = "Associate" /\ n = 1) \/
       (k = "Bachelor" /\ n = 2) \/ (k = "Master" /\ n = 3)) /\
      (getitem home_map k = Ok n <->
       (k = "RENT" /\ n = 0) \/ (k = "OWN" /\ n = 1) \/
       (k = "MORTGAGE" /\ n = 2) \/ (k = "OTHER" /\ n = 3)) /\
      (getitem defaults_map k = Ok n <->
       (k = "No" /\ n = 0) \/ (k = "Yes" /\ n = 1))) /\
  (forall a, valid_enums a ->
     exists d ge ee he de,
       input_dict_of a = Ok d /\
       getitem gender_map (gender a) = Ok ge /\
       getitem education_map (education a) = Ok ee /\
       getitem home_map (home_ownership a) = Ok he /\
       getitem defaults_map (previous_defaults a) = Ok de /\
       dict_get d "person_gender" = Some (NInt ge) /\
       dict_get d "person_education" = Some (NInt ee) /\
       dict_get d "person_home_ownership" = Some (NInt he) /\
       dict_get d "previous_loan_defaults_on_file" = Some (NInt de)).
Proof.
  split; [split; reflexivity|].
  split; [repeat split; reflexivity|].
  split; [repeat split; reflexivity|].
  split; [split; reflexivity|].
  split.
  - intros k n.
    split; [apply gender_map_spec|].
    split; [apply education_map_spec|].
    split; [apply home_map_spec | apply defaults_map_spec].
  - intros a Hv. destruct (input_dict_of_valid a Hv) as (ge & ee & he & de & H).
    destruct H as (_ & _ & _ & _ & Hd).
    destruct (input_dict_of_codes a _ Hd) as (ge' & ee' & he' & de' & H').
    eexists; exists ge', ee', he', de'. split; [exact Hd | exact H'].
Qed.

(** ** One-hot block *)

Lemma intent_flag_spec s n :
  intent_flag s n = if String.eqb s n then 1 else 0.
Proof. reflexivity. Qed.

Lemma intent_flag_outside s n :
  ~ In s intent_names -> In n intent_names -> intent_flag s n = 0.
Proof.
  intros Hout Hin. unfold intent_flag.
  destruct (String.eqb_spec s n) as [->|_]; [contradiction | reflexivity].
Qed.

(** The block of an assembled record holds the five flags of the intent. *)
Lemma input_dict_of_intent_block a d :
  input_dict_of a = Ok d ->
  intent_block d =
    map (fun n => Some (NInt (intent_flag (loan_intent a) n))) intent_names.
Proof.
  unfold input_dict_of.
  destruct (getitem gender_map (gender a)); [|discriminate].
  destruct (getitem education_map (education a)); [|discriminate].
  destruct (getitem home_map (home_ownership a)); [|discriminate].
  destruct (getitem defaults_map (previous_defaults a)); [|discriminate].
  intros H. inversion H. reflexivity.
Qed.

Lemma input_dict_of_intent_cell a d n :
  input_dict_of a = Ok d -> In n intent_names ->
  dict_get d (intent_key n) = Some (NInt (intent_flag (loan_intent a) n)).
Proof.
  intros Hd Hn. pose proof (input_dict_of_intent_block a d Hd) as Hb.
  unfold intent_block, intent_names in Hb. simpl in Hb.
  inversion Hb as [[H1 H2 H3 H4 H5]].
  simpl in Hn. decompose [or] Hn; subst; auto; contradiction.
Qed.

(** C5. For a loan intent among the five declared ones the encoder produces
    five 0/1 indicators; the one named after the supplied intent is 1 and the
    other four are 0. *)
Theorem one_hot_intent (a : RawApplication) :
  valid_enums a ->
  In (loan_intent a) intent_names ->
  exists d,
    input_dict_of a = Ok d /\
    (forall n, In n intent_names ->
       dict_get d (intent_key n) =
         Some (NInt (if String.eqb (loan_intent a) n then 1 else 0))) /\
    List.length (intent_block d) = 5%nat /\
    List.length (filter is_one (intent_block d)) = 1%nat /\
    List.length (filter is_zero (intent_block d)) = 4%nat.
Proof.
  intros Hv Hin.
  destruct (input_dict_of_valid a Hv) as (ge & ee & he & de & H).
  destruct H as (_ & _ & _ & _ & Hd).
  eexists. split; [exact Hd|].
  split.
  - intros n Hn. rewrite <- intent_flag_spec.
    now apply input_dict_of_intent_cell.
  - rewrite (input_dict_of_intent_block a _ Hd).
    simpl in Hin. decompose [or] Hin; try contradiction;
      match goal with H : _ = loan_intent a |- _ => rewrite <- H end;
      repeat split; reflexivity.
Qed.

Lemma one_hot_intent_witness :
  exists d,
    input_dict_of example_row = Ok d /\
    (forall n, In n intent_names ->
       dict_get d (intent_key n) =
         Some (NInt (if String.eqb (loan_intent example_row) n then 1 else 0))) /\
    List.length (intent_block d) = 5%nat /\
    List.length (filter is_one (intent_block d)) = 1%nat /\
    List.length (filter is_zero (intent_block d)) = 4%nat.
Proof.
  apply (one_hot_intent example_row).
  - unfold valid_enums, example_row; simpl. tauto.
  - simpl. tauto.
Defined.

(** ** Key set of the assembled record *)





(** The declared order decides the column order: a reversed list is a valid
    schema and is selected in reverse. *)
Lemma reversed_schema_selected :
  Permutation (rev FEATURE_KEYS) FEATURE_KEYS /\
  exists d f,
    input_dict_of example_row = Ok d /\
    select_columns (DataFrame_of_row d) (rev FEATURE_KEYS) = Ok f /\
    f = rev d.
Proof.
  split; [apply Permutation_sym, Permutation_rev|].
  eexists. eexists. split; [reflexivity|]. split; reflexivity.
Qed.


(** C10. A loan intent outside the five declared ones raises nothing: every
    one of the five indicators is 0, the record still has the 17 keys, and
    (when the declared names are among them) its selection is what the guarded
    inference block runs on. *)
Theorem undeclared_intent_all_zero (a : RawApplication) (g : globals) :
  valid_enums a ->
  ~ In (loan_intent a) intent_names ->
  exists d,
    input_dict_of a = Ok d /\
    keys d = FEATURE_KEYS /\ NoDup (keys d) /\
    intent_block d = [Some (NInt 0); Some (NInt 0); Some (NInt 0);
                      Some (NInt 0); Some (NInt 0)] /\
    (incl (feature_names g) FEATURE_KEYS ->
     exists f,
       select_columns (DataFrame_of_row d) (feature_names g) = Ok f /\
       columns f = feature_names g /\
       (forall n v, In (n, v) f -> dict_get d n = Some v) /\
       (forall n, In n intent_names -> In (intent_key n) (feature_names g) ->
                  In (intent_key n, NInt 0) f) /\
       predict_loan a g = try_except (try_body f) on_exception g).
Proof.
  intros Hv Hout.
  destruct (input_dict_of_valid a Hv) as (ge & ee & he & de & H).
  destruct H as (_ & _ & _ & _ & Hd).
  match type of Hd with _ = Ok ?x => set (d := x) in * end.
  pose proof (input_dict_of_keys a d Hd) as Hk.
  assert (Hblock : intent_block d = [Some (NInt 0); Some (NInt 0); Some (NInt 0);
                                     Some (NInt 0); Some (NInt 0)]).
  { rewrite (input_dict_of_intent_block a d Hd). unfold intent_names. simpl.
    rewrite !(intent_flag_outside (loan_intent a)); auto; simpl; tauto. }
  exists d. split; [exact Hd|]. split; [exact Hk|].
  split; [rewrite Hk; apply FEATURE_KEYS_NoDup|].
  split; [exact Hblock|].
  intros Hincl.
  destruct (select_columns_ok (DataFrame_of_row d) (feature_names g))
    as (f & Hf & Hc & Hcells).
  { intros n Hn. change (In n (keys d)). rewrite Hk. auto. }
  exists f. split; [exact Hf|]. split; [exact Hc|]. split; [exact Hcells|].
  split; [|now apply predict_loan_guarded with (d := d)].
  intros n Hn Hdecl. rewrite <- Hc in Hdecl.
  apply in_map_iff in Hdecl as [[n' v] [Heq Hin]]. simpl in Heq. subst n'.
  pose proof (Hcells _ _ Hin) as Hcell.
  change (dict_get d (intent_key n) = Some v) in Hcell.
  rewrite (input_dict_of_intent_cell a d n Hd Hn) in Hcell.
  rewrite (intent_flag_outside _ _ Hout Hn) in Hcell.
  inversion Hcell; subst. exact Hin.
Qed.

Lemma undeclared_intent_all_zero_witness :
  let a := with_intent example_row "DEBTCONSOLIDATION" in
  let g := load sample_artifact in
  exists d,
    input_dict_of a = Ok d /\
    keys d = FEATURE_KEYS /\ NoDup (keys d) /\
    intent_block d = [Some (NInt 0); Some (NInt 0); Some (NInt 0);
                      Some (NInt 0); Some (NInt 0)] /\
    (incl (feature_names g) FEATURE_KEYS ->
     exists f,
       select_columns (DataFrame_of_row d) (feature_names g) = Ok f /\
       columns f = feature_names g /\
       (forall n v, In (n, v) f -> dict_get d n = Some v) /\
       (forall n, In n intent_names -> In (intent_key n) (feature_names g) ->
                  In (intent_key n, NInt 0) f) /\
       predict_loan a g = try_except (try_body f) on_exception g).
Proof.
  intros a g. apply (undeclared_intent_all_zero a g).
  - unfold valid_enums, a; simpl. tauto.
  - unfold a; simpl. intros H.
    repeat (destruct H as [H|H]; [discriminate H|]). exact H.
Defined.

(** ** Schema skew between the artifact and the assembler *)

(** C1, as the code has it.  The selection of line 70 is by name: it fails,
    with a KeyError that leaves [predict_loan] uncaught, exactly when the
    declared list holds a name that is none of the 17 keys; a declared list
    made of some of the 17 keys, in any order, is selected without failure,
    each column holding the cell of its own name. *)
Theorem selection_fails_only_on_unknown_name (a : RawApplication) (g : globals) :
  valid_enums a ->
  exists d,
    input_dict_of a = Ok d /\ keys d = FEATURE_KEYS /\
    (incl (feature_names g) FEATURE_KEYS ->
     exists f,
       select_columns (DataFrame_of_row d) (feature_names g) = Ok f /\
       columns f = feature_names g /\
       (forall n v, In (n, v) f -> dict_get d n = Some v) /\
       predict_loan a g = try_except (try_body f) on_exception g) /\
    (~ incl (feature_names g) FEATURE_KEYS ->
     exists missing,
       missing <> [] /\
       (forall n, In n missing <->
                  In n (feature_names g) /\ ~ In n FEATURE_KEYS) /\
       predict_loan a g = (Exc (KeyError missing), g)).
Proof.
  intros Hv.
  destruct (input_dict_of_valid a Hv) as (ge & ee & he & de & H).
  destruct H as (_ & _ & _ & _ & Hd).
  match type of Hd with _ = Ok ?x => set (d := x) in * end.
  pose proof (input_dict_of_keys a d Hd) as Hk.
  exists d. split; [exact Hd|]. split; [exact Hk|]. split.
  - intros Hincl.
    destruct (select_columns_ok (DataFrame_of_row d) (feature_names g))
      as (f & Hf & Hc & Hcells).
    { intros n Hn. change (In n (keys d)). rewrite Hk. auto. }
    exists f. repeat split; auto.
    now apply predict_loan_guarded with (d := d).
  - intros Hnot.
    destruct (select_columns_missing (DataFrame_of_row d) (feature_names g))
      as (Hsel & n & Hn & Hnk & Hmiss).
    { change (columns (DataFrame_of_row d)) with (keys d). now rewrite Hk. }
    exists (missing_columns (DataFrame_of_row d) (feature_names g)).
    split; [intros Hnil; rewrite Hnil in Hmiss; destruct Hmiss|].
    split.
    + intros k. rewrite missing_columns_spec.
      change (columns (DataFrame_of_row d)) with (keys d). now rewrite Hk.
    + now apply predict_loan_select_raises with (d := d).
Qed.

Lemma selection_fails_only_on_unknown_name_witness :
  let g := load skewed_artifact in
  exists d,
    input_dict_of example_row = Ok d /\ keys d = FEATURE_KEYS /\
    (incl (feature_names g) FEATURE_KEYS ->
     exists f,
       select_columns (DataFrame_of_row d) (feature_names g) = Ok f /\
       columns f = feature_names g /\
       (forall n v, In (n, v) f -> dict_get d n = Some v) /\
       predict_loan example_row g = try_except (try_body f) on_exception g) /\
    (~ incl (feature_names g) FEATURE_KEYS ->
     exists missing,
       missing <> [] /\
       (forall n, In n missing <->
                  In n (feature_names g) /\ ~ In n FEATURE_KEYS) /\
       predict_loan example_row g = (Exc (KeyError missing), g)).
Proof.
  intros g. apply (selection_fails_only_on_unknown_name example_row g).
  unfold valid_enums, example_row; simpl. tauto.
Defined.

(** C1, as stated, fails: an artifact whose feature list leaves out
    credit_score is served without any failure; the column is dropped and the
    request is answered with a verdict. *)
Lemma schema_skew_not_detected :
  ~ same_set (md_feature_names skewed_artifact) FEATURE_KEYS /\
  (exists d f,
     input_dict_of example_row = Ok d /\
     In "credit_score" (keys d) /\
     select_columns (DataFrame_of_row d) (md_feature_names skewed_artifact) = Ok f /\
     List.length f = 16%nat /\
     ~ In "credit_score" (columns f)) /\
  predict_loan example_row (load skewed_artifact) =
    (Ok (verdict_text approved_headline (fmul f_0_875 (float_of_int 100))),
     load skewed_artifact) /\
  format_2f (fmul f_0_875 (float_of_int 100)) = "87.50".
Proof.
  split.
  - intros H. destruct (proj2 (H "credit_score")) as [Heq|Hin].
    + simpl. tauto.
    + discriminate Heq.
    + simpl in Hin. repeat (destruct Hin as [Hin|Hin]; [discriminate Hin|]).
      exact Hin.
  - split; [|split; reflexivity].
    eexists. eexists. split; [reflexivity|].
    split; [simpl; tauto|].
    split; [reflexivity|].
    split; [reflexivity|].
    simpl. intros Hin. repeat (destruct Hin as [Hin|Hin]; [discriminate Hin|]).
    exact Hin.
Qed.

(** ** What the guarded block returns *)

Lemma try_except_ok f g v g' :
  try_body f g = (Ok v, g') ->
  try_except (try_body f) on_exception g = (Ok v, g).
Proof.
  intros H. pose proof (try_body_store f g) as Hs.
  unfold try_except. rewrite H in *. simpl in Hs. now subst.
Qed.

Lemma try_except_caught f g e g' :
  try_body f g = (Exc e, g') ->
  try_except (try_body f) on_exception g = (Ok (error_prefix ++ exn_str e), g).
Proof.
  intros H. pose proof (try_body_store f g) as Hs.
  unfold try_except. rewrite H in *. simpl in Hs. now subst.
Qed.

(** A result of the [try] body is one of the two verdict texts. *)
Lemma try_body_ok_shape f g v g' :
  try_body f g = (Ok v, g') ->
  exists c, v = verdict_text approved_headline c \/
            v = verdict_text rejected_headline c.
Proof.
  unfold try_body, bind, gets, lift, ret.
  destruct (transform (scaler g) f) as [scaled|e]; [|discriminate].
  destruct (DataFrame scaled (feature_names g)) as [df|e]; [|discriminate].
  destruct (predict (model g) df) as [prediction|e]; [|discriminate].
  destruct (predict_proba (model g) df) as [probability|e]; [|discriminate].
  destruct (index prediction 0) as [label|e]; [|discriminate].
  destruct (label =? 0);
    (destruct (index probability 0) as [row|e]; [|discriminate]);
    [destruct (index row 0) as [p|e] | destruct (index row 1) as [p|e]];
    try discriminate; intros H; inversion H; eauto.
Qed.

Lemma verdict_not_error_prefixed c :
  ~ error_prefixed (verdict_text approved_headline c) /\
  ~ error_prefixed (verdict_text rejected_headline c).
Proof.
  split; intros [msg H]; unfold verdict_text, error_prefix in H; simpl in H;
    discriminate H.
Qed.

(** An exception raised before the [try] leaves [predict_loan]. *)
Lemma education_out_of_domain_escapes :
  predict_loan (with_education example_row "PhD") (load sample_artifact) =
    (Exc (KeyError ["PhD"]), load sample_artifact).
Proof. reflexivity. Qed.

(** C2, as the code has it.  With the four dict-encoded fields in their
    domains and a loan intent outside the five declared ones, no exception
    leaves [predict_loan] and no domain error is reported: the indicators are
    all 0 and the returned string is the verdict of the inference on that
    record, error-prefixed only when the guarded block itself raised. *)
Theorem undeclared_intent_is_not_an_error (a : RawApplication) (g : globals) :
  valid_enums a ->
  ~ In (loan_intent a) intent_names ->
  incl (feature_names g) FEATURE_KEYS ->
  exists d f s,
    input_dict_of a = Ok d /\
    Forall (fun c => c = Some (NInt 0)) (intent_block d) /\
    select_columns (DataFrame_of_row d) (feature_names g) = Ok f /\
    predict_loan a g = (Ok s, g) /\
    ((exists g', try_body f g = (Ok s, g') /\ ~ error_prefixed s) \/
     (exists e g', try_body f g = (Exc e, g') /\ s = error_prefix ++ exn_str e)).
Proof.
  intros Hv Hout Hincl.
  destruct (input_dict_of_valid a Hv) as (ge & ee & he & de & H).
  destruct H as (_ & _ & _ & _ & Hd).
  match type of Hd with _ = Ok ?x => set (d := x) in * end.
  pose proof (input_dict_of_keys a d Hd) as Hk.
  destruct (select_columns_ok (DataFrame_of_row d) (feature_names g))
    as (f & Hf & _).
  { intros n Hn. change (In n (keys d)). rewrite Hk. auto. }
  assert (Hblock : Forall (fun c => c = Some (NInt 0)) (intent_block d)).
  { rewrite (input_dict_of_intent_block a d Hd). apply Forall_map.
    apply Forall_forall. intros n Hn.
    now rewrite (intent_flag_outside _ _ Hout Hn). }
  rewrite (predict_loan_guarded a g d f Hd Hf).
  destruct (try_body f g) as [[v|e] g'] eqn:Hb.
  - exists d, f, v. repeat split; auto.
    + eapply try_except_ok; eauto.
    + left. exists g'. split; [exact Hb|].
      destruct (try_body_ok_shape f g v g' Hb) as [c [-> | ->]];
        apply verdict_not_error_prefixed.
  - exists d, f, (error_prefix ++ exn_str e). repeat split; auto.
    + eapply try_except_caught; eauto.
    + right. eauto.
Qed.

Lemma undeclared_intent_is_not_an_error_witness :
  let a := with_intent example_row "DEBTCONSOLIDATION" in
  let g := load (artifact (constant_model 1) identity_scaler FEATURE_KEYS) in
  exists d f s,
    input_dict_of a = Ok d /\
    Forall (fun c => c = Some (NInt 0)) (intent_block d) /\
    select_columns (DataFrame_of_row d) (feature_names g) = Ok f /\
    predict_loan a g = (Ok s, g) /\
    ((exists g', try_body f g = (Ok s, g') /\ ~ error_prefixed s) \/
     (exists e g', try_body f g = (Exc e, g') /\ s = error_prefix ++ exn_str e)).
Proof.
  intros a g. apply (undeclared_intent_is_not_an_error a g).
  - unfold valid_enums, a; simpl. tauto.
  - unfold a; simpl. intros H.
    repeat (destruct H as [H|H]; [discriminate H|]). exact H.
  - apply incl_refl.
Defined.

(** C2, as stated, fails: a request whose loan_intent is outside the declared
    domain is answered with an ordinary verdict, not an error-prefixed one. *)
Lemma out_of_domain_intent_gets_a_verdict :
  let a := with_intent example_row "DEBTCONSOLIDATION" in
  let g := load sample_artifact in
  ~ In (loan_intent a) intent_names /\
  predict_loan a g =
    (Ok (verdict_text approved_headline (fmul f_0_875 (float_of_int 100))), g) /\
  verdict_text approved_headline (fmul f_0_875 (float_of_int 100)) =
    "✅ Loan Approved" ++ nl ++ nl ++ "Confidence: 87.50%" /\
  ~ error_prefixed
      (verdict_text approved_headline (fmul f_0_875 (float_of_int 100))).
Proof.
  intros a g. split; [|split; [|split]].
  - unfold a; simpl. intros H.
    repeat (destruct H as [H|H]; [discriminate H|]). exact H.
  - reflexivity.
  - reflexivity.
  - apply verdict_not_error_prefixed.
Qed.

(** ** Failures inside the guarded block *)



(** The failing scaler of the samples is answered with its message. *)
Lemma failing_scaler_response :
  predict_loan example_row
    (load (artifact (constant_model 0) failing_scaler FEATURE_KEYS)) =
  (Ok "❌ Error: Input contains NaN.",
   load (artifact (constant_model 0) failing_scaler FEATURE_KEYS)).
Proof. reflexivity. Qed.

(** ** Verdict text *)


Lemma index_nth {A} (xs : list A) i x : nth_error xs i = Some x -> index xs i = Ok x.
Proof. intros H. unfold index. now rewrite H. Qed.









(** The float type of the probability shows in the printed confidence: the
    same value 8424679 * 2^-24 prints as 50.22 when it is a float32 and as
    50.21 when it is a float64. *)
Lemma confidence_depends_on_float_type :
  format_2f (fmul (mkfloat np_float32 (S754_finite false 8424679 (-24)))
                  (float_of_int 100)) = "50.22" /\
  format_2f (fmul (mkfloat np_float64 (S754_finite false 8424679 (-24)))
                  (float_of_int 100)) = "50.21" /\
  fst (predict_loan example_row
         (load (artifact (float32_model 1
                            (S754_finite false 16705074 (-25))
                            (S754_finite false 8424679 (-24)))
                  identity_scaler FEATURE_KEYS))) =
    Ok ("❌ Loan Rejected (High Default Risk)" ++ nl ++ nl ++ "Confidence: 50.22%").
Proof. repeat split; reflexivity. Qed.

(** Both outcomes on the sample artifacts, with the printed confidence. *)
Lemma sample_verdicts :
  fst (predict_loan example_row (load sample_artifact)) =
    Ok ("✅ Loan Approved" ++ nl ++ nl ++ "Confidence: 87.50%") /\
  fst (predict_loan example_row
         (load (artifact (constant_model 1) identity_scaler FEATURE_KEYS))) =
    Ok ("❌ Loan Rejected (High Default Risk)" ++ nl ++ nl ++ "Confidence: 87.50%").
Proof. split; reflexivity. Qed.

(** ** Requests do not touch the globals *)

Lemma serve_store reqs g : snd (serve reqs g) = g.
Proof.
  revert g. induction reqs as [|a rest IH]; intros g; simpl; [reflexivity|].
  pose proof (predict_loan_store a g) as Ha.
  destruct (predict_loan a g) as [r g1]. simpl in Ha. subst g1.
  specialize (IH g). destruct (serve rest g) as [rs g2]. exact IH.
Qed.

(** C8. Two invocations with the same request against the same artifact
    return the same result, one right after the other or with any other
    requests served before either of them. *)
Theorem predict_deterministic (a : RawApplication) (g : globals) :
  (let (r1, g1) := predict_loan a g in
   let (r2, _) := predict_loan a g1 in
   r1 = r2) /\
  (forall before1 before2 : list RawApplication,
     fst (predict_loan a (snd (serve before1 g))) =
     fst (predict_loan a (snd (serve before2 g)))).
Proof.
  split.
  - pose proof (predict_loan_store a g) as Ha.
    destruct (predict_loan a g) as [r1 g1] eqn:H1. simpl in Ha. subst g1.
    now rewrite H1.
  - intros before1 before2. now rewrite !serve_store.
Qed.

(** C9. A call of [predict_loan], whether it returns a verdict, returns an
    error text or raises, leaves the loaded model, scaler and feature names
    as they were; so does any sequence of calls. *)
Theorem artifact_state_unchanged (a : RawApplication) (g : globals) :
  (forall r g', predict_loan a g = (r, g') ->
     g' = g /\ model g' = model g /\ scaler g' = scaler g /\
     feature_names g' = feature_names g /\ model_data g' = model_data g) /\
  (forall reqs, snd (serve reqs g) = g).
Proof.
  split.
  - intros r g' H. pose proof (predict_loan_store a g) as Hs.
    rewrite H in Hs. simpl in Hs. subst g'. auto.
  - intros reqs. apply serve_store.
Qed.

(** * Further properties of the pipeline *)

(** ** Alignment of names and cells *)

Lemma project_nth row names f i n :
  project row names = Some f ->
  nth_error names i = Some n ->
  exists v, nth_error f i = Some (n, v) /\ dict_get row n = Some v.
Proof.
  revert f i. induction names as [|n0 ns IH]; intros f i Hp Hn.
  - destruct i; discriminate Hn.
  - simpl in Hp.
    destruct (dict_get row n0) as [v0|] eqn:H0; [|discriminate].
    destruct (project row ns) as [f'|] eqn:Hf'; [|discriminate].
    inversion Hp; subst f. destruct i as [|i]; simpl in *.
    + inversion Hn; subst n0. eauto.
    + eapply IH; eauto.
Qed.

Lemma select_columns_project df names f :
  select_columns df names = Ok f <-> project df names = Some f.
Proof.
  unfold select_columns. destruct (project df names); split; congruence.
Qed.

Lemma select_columns_length df names f :
  select_columns df names = Ok f -> List.length f = List.length names.
Proof.
  intros H%select_columns_project%project_columns.
  rewrite <- H. unfold columns. now rewrite length_map.
Qed.

(** X1. The frame handed to the scaler has, at every position, the declared name
    of that position together with the record's value under that name. *)
Theorem scaler_input_aligned (a : RawApplication) (g : globals)
    (d : dict number) (f : frame) :
  input_dict_of a = Ok d ->
  select_columns (DataFrame_of_row d) (feature_names g) = Ok f ->
  List.length f = List.length (feature_names g) /\
  (forall i n, nth_error (feature_names g) i = Some n ->
     exists v, nth_error f i = Some (n, v) /\ dict_get d n = Some v) /\
  (forall i n v, nth_error f i = Some (n, v) ->
     nth_error (feature_names g) i = Some n /\ dict_get d n = Some v).
Proof.
  intros Hd Hf. split; [now apply select_columns_length with (df := DataFrame_of_row d)|].
  pose proof (proj1 (select_columns_project _ _ _) Hf) as Hp.
  split.
  - intros i n Hn. apply (project_nth _ _ _ _ _ Hp Hn).
  - intros i n v Hi.
    assert (Hlt : (i < List.length (feature_names g))%nat).
    { rewrite <- (select_columns_length _ _ _ Hf).
      apply nth_error_Some. congruence. }
    destruct (nth_error (feature_names g) i) as [n'|] eqn:Hn'.
    + destruct (project_nth _ _ _ _ _ Hp Hn') as (v' & Hv' & Hget).
      rewrite Hi in Hv'. inversion Hv'; subst. auto.
    + apply nth_error_None in Hn'. lia.
Qed.

Lemma scaler_input_aligned_witness :
  let g := load (artifact (constant_model 0) identity_scaler (rev FEATURE_KEYS)) in
  let d := build_input_dict example_row 1 2 0 0 0 0 0 1 0 in
  let f := rev d in
  List.length f = List.length (feature_names g) /\
  (forall i n, nth_error (feature_names g) i = Some n ->
     exists v, nth_error f i = Some (n, v) /\ dict_get d n = Some v) /\
  (forall i n v, nth_error f i = Some (n, v) ->
     nth_error (feature_names g) i = Some n /\ dict_get d n = Some v).
Proof.
  intros g d f. apply (scaler_input_aligned example_row g d f); reflexivity.
Defined.

(** What the record holds under each raw feature name. *)
Lemma input_dict_of_raw a d :
  input_dict_of a = Ok d ->
  dict_get d "person_age" = Some (age a) /\
  dict_get d "person_income" = Some (income a) /\
  dict_get d "person_emp_exp" = Some (emp_exp a) /\
  dict_get d "loan_amnt" = Some (loan_amount a) /\
  dict_get d "loan_int_rate" = Some (interest_rate a) /\
  dict_get d "loan_percent_income" = Some (loan_percent_income a) /\
  dict_get d "cb_person_cred_hist_length" = Some (credit_history a) /\
  dict_get d "credit_score" = Some (credit_score a).
Proof.
  unfold input_dict_of.
  destruct (getitem gender_map (gender a)); [|discriminate].
  destruct (getitem education_map (education a)); [|discriminate].
  destruct (getitem home_map (home_ownership a)); [|discriminate].
  destruct (getitem defaults_map (previous_defaults a)); [|discriminate].
  intros H. inversion H. repeat split; reflexivity.
Qed.

(** X2. The eight raw numeric arguments reach the scaler unchanged and unchecked,
    each in the column the artifact declares under its feature name:
    age as person_age, income as person_income, emp_exp as person_emp_exp,
    loan_amount as loan_amnt, interest_rate as loan_int_rate,
    loan_percent_income under its own name, credit_history as
    cb_person_cred_hist_length and credit_score under its own name. *)
Theorem raw_fields_pass_through (a : RawApplication) (g : globals)
    (d : dict number) (f : frame) (i : nat) :
  input_dict_of a = Ok d ->
  select_columns (DataFrame_of_row d) (feature_names g) = Ok f ->
  (nth_error (feature_names g) i = Some "person_age" ->
   nth_error f i = Some ("person_age", age a)) /\
  (nth_error (feature_names g) i = Some "person_income" ->
   nth_error f i = Some ("person_income", income a)) /\
  (nth_error (feature_names g) i = Some "person_emp_exp" ->
   nth_error f i = Some ("person_emp_exp", emp_exp a)) /\
  (nth_error (feature_names g) i = Some "loan_amnt" ->
   nth_error f i = Some ("loan_amnt", loan_amount a)) /\
  (nth_error (feature_names g) i = Some "loan_int_rate" ->
   nth_error f i = Some ("loan_int_rate", interest_rate a)) /\
  (nth_error (feature_names g) i = Some "loan_percent_income" ->
   nth_error f i = Some ("loan_percent_income", loan_percent_income a)) /\
  (nth_error (feature_names g) i = Some "cb_person_cred_hist_length" ->
   nth_error f i = Some ("cb_person_cred_hist_length", credit_history a)) /\
  (nth_error (feature_names g) i = Some "credit_score" ->
   nth_error f i = Some ("credit_score", credit_score a)).
Proof.
  intros Hd Hf.
  pose proof (proj1 (select_columns_project _ _ _) Hf) as Hp.
  destruct (input_dict_of_raw a d Hd)
    as (H1 & H2 & H3 & H4 & H5 & H6 & H7 & H8).
  assert (Hcell : forall n v, dict_get d n = Some v ->
            nth_error (feature_names g) i = Some n ->
            nth_error f i = Some (n, v)).
  { intros n v Hv Hn. destruct (project_nth _ _ _ _ _ Hp Hn) as (v' & Hv' & Hg).
    change (dict_get d n = Some v') in Hg. congruence. }
  repeat split; apply Hcell; assumption.
Qed.

Lemma raw_fields_pass_through_witness :
  let a := with_credit_score example_row (NInt (-5)) in
  let g := load sample_artifact in
  let d := build_input_dict a 1 2 0 0 0 0 0 1 0 in
  let f := DataFrame_of_row d in
  let i := 10%nat in
  (nth_error (feature_names g) i = Some "person_age" ->
   nth_error f i = Some ("person_age", age a)) /\
  (nth_error (feature_names g) i = Some "person_income" ->
   nth_error f i = Some ("person_income", income a)) /\
  (nth_error (feature_names g) i = Some "person_emp_exp" ->
   nth_error f i = Some ("person_emp_exp", emp_exp a)) /\
  (nth_error (feature_names g) i = Some "loan_amnt" ->
   nth_error f i = Some ("loan_amnt", loan_amount a)) /\
  (nth_error (feature_names g) i = Some "loan_int_rate" ->
   nth_error f i = Some ("loan_int_rate", interest_rate a)) /\
  (nth_error (feature_names g) i = Some "loan_percent_income" ->
   nth_error f i = Some ("loan_percent_income", loan_percent_income a)) /\
  (nth_error (feature_names g) i = Some "cb_person_cred_hist_length" ->
   nth_error f i = Some ("cb_person_cred_hist_length", credit_history a)) /\
  (nth_error (feature_names g) i = Some "credit_score" ->
   nth_error f i = Some ("credit_score", credit_score a)).
Proof.
  intros a g d f i. apply (raw_fields_pass_through a g d f i); reflexivity.
Defined.

(** ** Undeclared columns do not matter *)

Lemma project_ext (r1 r2 : frame) names :
  (forall n, In n names -> dict_get r1 n = dict_get r2 n) ->
  project r1 names = project r2 names.
Proof.
  induction names as [|n ns IH]; intros H; simpl; [reflexivity|].
  rewrite (H n (or_introl eq_refl)), IH; [reflexivity|].
  intros k Hk. apply H. now right.
Qed.

Lemma missing_columns_ext (r1 r2 : frame) names :
  (forall n, In n names -> dict_get r1 n = dict_get r2 n) ->
  missing_columns r1 names = missing_columns r2 names.
Proof.
  intros H. unfold missing_columns. cbv zeta.
  rewrite (filter_ext_in _
             (fun n => match dict_get r2 n with None => true | Some _ => false end)
             names); [reflexivity|].
  intros n Hn. now rewrite (H n Hn).
Qed.

(** X3. Two requests whose records agree under every declared feature name get
    the same answer: a column the artifact does not declare has no influence
    on the result. *)
Theorem undeclared_columns_ignored (a b : RawApplication) (g : globals)
    (da db : dict number) :
  input_dict_of a = Ok da ->
  input_dict_of b = Ok db ->
  (forall n, In n (feature_names g) -> dict_get da n = dict_get db n) ->
  predict_loan a g = predict_loan b g.
Proof.
  intros Ha Hb Hagree.
  unfold predict_loan, bind, lift, gets. rewrite Ha, Hb.
  unfold select_columns, DataFrame_of_row.
  now rewrite (project_ext da db _ Hagree), (missing_columns_ext da db _ Hagree).
Qed.

Lemma undeclared_columns_ignored_witness :
  predict_loan example_row (load skewed_artifact) =
  predict_loan (with_credit_score example_row (NInt 300)) (load skewed_artifact).
Proof.
  apply (undeclared_columns_ignored example_row
           (with_credit_score example_row (NInt 300)) (load skewed_artifact)
           (build_input_dict example_row 1 2 0 0 0 0 0 1 0)
           (build_input_dict (with_credit_score example_row (NInt 300))
              1 2 0 0 0 0 0 1 0)).
  - reflexivity.
  - reflexivity.
  - intros n Hn. simpl in Hn.
    repeat (destruct Hn as [<-|Hn]; [reflexivity|]). destruct Hn.
Defined.

(** ** What the encoding keeps and what it loses *)

Lemma gender_code_injective k1 k2 n :
  getitem gender_map k1 = Ok n -> getitem gender_map k2 = Ok n -> k1 = k2.
Proof.
  intros H1%gender_map_spec H2%gender_map_spec.
  decompose [or and] H1; decompose [or and] H2; subst; congruence.
Qed.

Lemma education_code_injective k1 k2 n :
  getitem education_map k1 = Ok n -> getitem education_map k2 = Ok n -> k1 = k2.
Proof.
  intros H1%education_map_spec H2%education_map_spec.
  decompose [or and] H1; decompose [or and] H2; subst; congruence.
Qed.

Lemma home_code_injective k1 k2 n :
  getitem home_map k1 = Ok n -> getitem home_map k2 = Ok n -> k1 = k2.
Proof.
  intros H1%home_map_spec H2%home_map_spec.
  decompose [or and] H1; decompose [or and] H2; subst; congruence.
Qed.

Lemma defaults_code_injective k1 k2 n :
  getitem defaults_map k1 = Ok n -> getitem defaults_map k2 = Ok n -> k1 = k2.
Proof.
  intros H1%defaults_map_spec H2%defaults_map_spec.
  decompose [or and] H1; decompose [or and] H2; subst; congruence.
Qed.

Lemma intent_flag_one s n : intent_flag s n = 1 <-> s = n.
Proof.
  unfold intent_flag. destruct (String.eqb_spec s n); split; congruence.
Qed.

(** Among the declared intents the five flags determine the intent. *)
Lemma intent_flags_injective s1 s2 :
  In s1 intent_names ->
  (forall n, In n intent_names -> intent_flag s1 n = intent_flag s2 n) ->
  s1 = s2.
Proof.
  intros Hin Hflags. symmetry. apply intent_flag_one.
  rewrite <- (Hflags s1 Hin). now apply intent_flag_one.
Qed.

Lemma some_nint_inj x y : Some (NInt x) = Some (NInt y) -> x = y.
Proof. congruence. Qed.

(** X4. On the declared domains the encoding loses nothing: two valid requests
    with the same assembled record are the same request. *)
Theorem encoding_injective_on_valid (a b : RawApplication) (d : dict number) :
  valid_application a ->
  input_dict_of a = Ok d ->
  input_dict_of b = Ok d ->
  a = b.
Proof.
  intros [_ Hintent] Ha Hb.
  destruct (input_dict_of_codes a d Ha)
    as (ga & ea & ha & da & Hga & Hea & Hha & Hda & Cg & Ce & Ch & Cd).
  destruct (input_dict_of_codes b d Hb)
    as (gb & eb & hb & db & Hgb & Heb & Hhb & Hdb & Cg' & Ce' & Ch' & Cd').
  rewrite Cg in Cg'. rewrite Ce in Ce'. rewrite Ch in Ch'. rewrite Cd in Cd'.
  apply some_nint_inj in Cg', Ce', Ch', Cd'. subst gb eb hb db.
  pose proof (gender_code_injective _ _ _ Hga Hgb) as Eg.
  pose proof (education_code_injective _ _ _ Hea Heb) as Ee.
  pose proof (home_code_injective _ _ _ Hha Hhb) as Eh.
  pose proof (defaults_code_injective _ _ _ Hda Hdb) as Ed.
  assert (Ei : loan_intent a = loan_intent b).
  { apply intent_flags_injective; [exact Hintent|].
    intros n Hn.
    pose proof (input_dict_of_intent_cell a d n Ha Hn) as Fa.
    pose proof (input_dict_of_intent_cell b d n Hb Hn) as Fb.
    rewrite Fa in Fb. now apply some_nint_inj in Fb. }
  destruct (input_dict_of_raw a d Ha)
    as (A1 & A2 & A3 & A4 & A5 & A6 & A7 & A8).
  destruct (input_dict_of_raw b d Hb)
    as (B1 & B2 & B3 & B4 & B5 & B6 & B7 & B8).
  rewrite A1 in B1. rewrite A2 in B2. rewrite A3 in B3. rewrite A4 in B4.
  rewrite A5 in B5. rewrite A6 in B6. rewrite A7 in B7. rewrite A8 in B8.
  destruct a, b; simpl in *. congruence.
Qed.

Lemma encoding_injective_on_valid_witness :
  example_row = example_row.
Proof.
  apply (encoding_injective_on_valid example_row example_row
           (build_input_dict example_row 1 2 0 0 0 0 0 1 0)).
  - unfold valid_application, valid_enums; simpl. tauto.
  - reflexivity.
  - reflexivity.
Defined.

Lemma input_dict_of_with_intent_outside a s1 s2 :
  ~ In s1 intent_names -> ~ In s2 intent_names ->
  input_dict_of (with_intent a s1) = input_dict_of (with_intent a s2).
Proof.
  intros H1 H2. unfold input_dict_of, with_intent; simpl.
  destruct (getitem gender_map (gender a)); [|reflexivity].
  destruct (getitem education_map (education a)); [|reflexivity].
  destruct (getitem home_map (home_ownership a)); [|reflexivity].
  destruct (getitem defaults_map (previous_defaults a)); [|reflexivity].
  rewrite !(intent_flag_outside s1), !(intent_flag_outside s2);
    auto; simpl; tauto.
Qed.

(** X5. Outside the five declared intents the encoding forgets the intent: two
    requests that differ only in an undeclared loan intent get the same
    answer, whatever the artifact. *)
Theorem undeclared_intents_indistinguishable (a : RawApplication)
    (s1 s2 : string) (g : globals) :
  ~ In s1 intent_names ->
  ~ In s2 intent_names ->
  predict_loan (with_intent a s1) g = predict_loan (with_intent a s2) g.
Proof.
  intros H1 H2. unfold predict_loan, bind, lift, gets.
  now rewrite (input_dict_of_with_intent_outside a s1 s2 H1 H2).
Qed.

Lemma undeclared_intents_indistinguishable_witness :
  predict_loan (with_intent example_row "DEBTCONSOLIDATION") (load sample_artifact) =
  predict_loan (with_intent example_row "personal") (load sample_artifact).
Proof.
  apply (undeclared_intents_indistinguishable example_row
           "DEBTCONSOLIDATION" "personal" (load sample_artifact));
    simpl; intros H; repeat (destruct H as [H|H]; [discriminate H|]); exact H.
Defined.

(** ** Which exceptions leave [predict_loan] *)

Lemma getitem_miss {V} (d : dict V) k :
  ~ In k (keys d) -> getitem d k = Exc (KeyError [k]).
Proof.
  intros H%dict_get_none. unfold getitem. now rewrite H.
Qed.

Lemma getitem_hit {V} (d : dict V) k v :
  getitem d k = Ok v -> In k (keys d).
Proof.
  intros H%getitem_ok. apply dict_get_in_keys. eauto.
Qed.

Lemma input_dict_of_ok_valid a d : input_dict_of a = Ok d -> valid_enums a.
Proof.
  intros H. destruct (input_dict_of_codes a d H)
    as (ge & ee & he & de & Hg & He & Hh & Hd & _).
  repeat split; eapply getitem_hit; eauto.
Qed.

Lemma unknown_names_spec names n :
  In n (unknown_names names) <-> In n names /\ ~ In n FEATURE_KEYS.
Proof.
  unfold unknown_names. cbv zeta. rewrite reported_In.
  destruct (existsb (String.eqb n) FEATURE_KEYS) eqn:E; simpl.
  - apply existsb_exists in E as (k & Hk & Heq).
    apply String.eqb_eq in Heq. subst k. intuition congruence.
  - split; [intros [Hn _]; split; [exact Hn|] | intros [Hn _]; auto].
    intros Hin. assert (existsb (String.eqb n) FEATURE_KEYS = true).
    { apply existsb_exists. exists n. split; [exact Hin | apply String.eqb_refl]. }
    congruence.
Qed.

Lemma missing_columns_unknown (d : dict number) names :
  keys d = FEATURE_KEYS ->
  missing_columns (DataFrame_of_row d) names = unknown_names names.
Proof.
  intros Hk. unfold missing_columns, unknown_names. cbv zeta.
  rewrite (filter_ext _
             (fun n => negb (existsb (String.eqb n) FEATURE_KEYS)));
    [reflexivity|].
  intros n. unfold DataFrame_of_row.
  destruct (dict_get d n) as [v|] eqn:Hn.
  - assert (Hin : In n FEATURE_KEYS).
    { rewrite <- Hk. apply dict_get_in_keys. eauto. }
    symmetry. apply negb_false_iff, existsb_exists.
    exists n. split; [exact Hin | apply String.eqb_refl].
  - apply dict_get_none in Hn. rewrite Hk in Hn.
    symmetry. apply negb_true_iff.
    destruct (existsb (String.eqb n) FEATURE_KEYS) eqn:E; [|reflexivity].
    apply existsb_exists in E as (k & Hk' & Heq).
    apply String.eqb_eq in Heq. subst k. contradiction.
Qed.

Lemma input_dict_of_raises_key_error a e :
  input_dict_of a = Exc e -> exists k, e = KeyError [k].
Proof.
  unfold input_dict_of, getitem.
  destruct (dict_get gender_map (gender a)); [|intros H; inversion H; eauto].
  destruct (dict_get education_map (education a));
    [|intros H; inversion H; eauto].
  destruct (dict_get home_map (home_ownership a));
    [|intros H; inversion H; eauto].
  destruct (dict_get defaults_map (previous_defaults a));
    [discriminate | intros H; inversion H; eauto].
Qed.

Lemma select_columns_ok_incl (d : dict number) names f :
  select_columns (DataFrame_of_row d) names = Ok f -> incl names (keys d).
Proof.
  intros Hf%select_columns_project n Hn.
  destruct (In_nth_error _ _ Hn) as [i Hi].
  destruct (project_nth _ _ _ _ _ Hf Hi) as (v & _ & Hv).
  apply dict_get_in_keys. eauto.
Qed.

(** X6. A KeyError leaves [predict_loan] exactly when one of the four
    dict-encoded fields is no key of its map or a declared feature name is
    none of the 17 keys, whatever the scaler and the classifier do; and
    whenever a string is returned, the four fields are keys of their maps and
    every declared name is one of the 17 keys. *)
Theorem key_error_iff_invalid (a : RawApplication) (g : globals) :
  ((exists ks, predict_loan a g = (Exc (KeyError ks), g)) <->
   ~ (valid_enums a /\ incl (feature_names g) FEATURE_KEYS)) /\
  (forall s, fst (predict_loan a g) = Ok s ->
     valid_enums a /\ incl (feature_names g) FEATURE_KEYS).
Proof.
  assert (Hok : forall d f,
             input_dict_of a = Ok d ->
             select_columns (DataFrame_of_row d) (feature_names g) = Ok f ->
             valid_enums a /\ incl (feature_names g) FEATURE_KEYS).
  { intros d f Hd Hf. split; [eapply input_dict_of_ok_valid; eauto|].
    rewrite <- (input_dict_of_keys a d Hd).
    eapply select_columns_ok_incl; eauto. }
  split; [split|].
  - intros [ks Hks] [Hv Hincl].
    destruct (input_dict_of_valid a Hv) as (ge & ee & he & de & H).
    destruct H as (_ & _ & _ & _ & Hd).
    match type of Hd with _ = Ok ?x => set (d := x) in * end.
    destruct (select_columns_ok (DataFrame_of_row d) (feature_names g))
      as (f & Hf & _).
    { intros n Hn. change (In n (keys d)).
      rewrite (input_dict_of_keys a d Hd). auto. }
    rewrite (predict_loan_guarded a g d f Hd Hf) in Hks.
    destruct (guarded_returns f g) as [s Hs]. congruence.
  - intros Hnot.
    destruct (input_dict_of a) as [d|e] eqn:Hd.
    + destruct (select_columns (DataFrame_of_row d) (feature_names g))
        as [f|e] eqn:Hf.
      * exfalso. apply Hnot. eapply Hok; eauto.
      * unfold select_columns in Hf.
        destruct (project (DataFrame_of_row d) (feature_names g)) eqn:Hp;
          [discriminate|].
        inversion Hf as [He]. eexists.
        apply predict_loan_select_raises with (d := d); [exact Hd|].
        unfold select_columns. now rewrite Hp.
    + destruct (input_dict_of_raises_key_error a e Hd) as [k ->].
      exists [k]. now apply predict_loan_encode_raises.
  - intros s Hs. unfold predict_loan, bind, lift, gets in Hs.
    destruct (input_dict_of a) as [d|e] eqn:Hd; [|discriminate].
    destruct (select_columns (DataFrame_of_row d) (feature_names g))
      as [f|e] eqn:Hf; [|discriminate].
    eapply Hok; eauto.
Qed.

(** X7. The KeyError names the first lookup that misses, in the order gender,
    education, home_ownership, previous_defaults; only when all four succeed
    does the feature list matter, and then the error names the declared
    features that are none of the 17 keys, each once, in declared order (the
    whole declared list when none of its names is a key). *)
Theorem key_error_precedence (a : RawApplication) (g : globals) :
  (~ In (gender a) (keys gender_map) ->
   predict_loan a g = (Exc (KeyError [gender a]), g)) /\
  (In (gender a) (keys gender_map) ->
   ~ In (education a) (keys education_map) ->
   predict_loan a g = (Exc (KeyError [education a]), g)) /\
  (In (gender a) (keys gender_map) ->
   In (education a) (keys education_map) ->
   ~ In (home_ownership a) (keys home_map) ->
   predict_loan a g = (Exc (KeyError [home_ownership a]), g)) /\
  (In (gender a) (keys gender_map) ->
   In (education a) (keys education_map) ->
   In (home_ownership a) (keys home_map) ->
   ~ In (previous_defaults a) (keys defaults_map) ->
   predict_loan a g = (Exc (KeyError [previous_defaults a]), g)) /\
  (valid_enums a ->
   ~ incl (feature_names g) FEATURE_KEYS ->
   predict_loan a g = (Exc (KeyError (unknown_names (feature_names g))), g)).
Proof.
  repeat split.
  - intros Hg. apply predict_loan_encode_raises.
    unfold input_dict_of. now rewrite (getitem_miss _ _ Hg).
  - intros Hg He. apply predict_loan_encode_raises.
    destruct (getitem_total _ _ Hg) as [ge Hge].
    unfold input_dict_of. now rewrite Hge, (getitem_miss _ _ He).
  - intros Hg He Hh. apply predict_loan_encode_raises.
    destruct (getitem_total _ _ Hg) as [ge Hge].
    destruct (getitem_total _ _ He) as [ee Hee].
    unfold input_dict_of. now rewrite Hge, Hee, (getitem_miss _ _ Hh).
  - intros Hg He Hh Hd. apply predict_loan_encode_raises.
    destruct (getitem_total _ _ Hg) as [ge Hge].
    destruct (getitem_total _ _ He) as [ee Hee].
    destruct (getitem_total _ _ Hh) as [he Hhe].
    unfold input_dict_of. now rewrite Hge, Hee, Hhe, (getitem_miss _ _ Hd).
  - intros Hv Hnot.
    destruct (input_dict_of_valid a Hv) as (ge & ee & he & de & H).
    destruct H as (_ & _ & _ & _ & Hd).
    match type of Hd with _ = Ok ?x => set (d := x) in * end.
    pose proof (input_dict_of_keys a d Hd) as Hk.
    apply predict_loan_select_raises with (d := d); [exact Hd|].
    destruct (select_columns_missing (DataFrame_of_row d) (feature_names g))
      as (Hsel & _).
    { change (columns (DataFrame_of_row d)) with (keys d). now rewrite Hk. }
    rewrite Hsel. now rewrite (missing_columns_unknown d _ Hk).
Qed.

(** A repeated unknown name is reported once; a list of unknown names only
    is reported as it is. *)
Lemma repeated_unknown_name_reported_once :
  fst (predict_loan example_row
         (load (artifact (constant_model 0) identity_scaler
                  ["bogus"; "person_age"; "bogus"]))) =
    Exc (KeyError ["bogus"]) /\
  fst (predict_loan example_row
         (load (artifact (constant_model 0) identity_scaler
                  ["bogus"; "other"; "bogus"]))) =
    Exc (KeyError ["bogus"; "other"; "bogus"]).
Proof. split; reflexivity. Qed.

(** The spelling without the space is no key of the education map. *)
Lemma education_spelling_matters (g : globals) :
  predict_loan (with_education example_row "HighSchool") g =
    (Exc (KeyError ["HighSchool"]), g) /\
  exists s, predict_loan (with_education example_row "High School")
              (load sample_artifact) = (Ok s, load sample_artifact).
Proof.
  split; [reflexivity | eexists; reflexivity].
Qed.

(** ** Shape of the returned text *)

Lemma verdicts_differ c1 c2 :
  verdict_text approved_headline c1 <> verdict_text rejected_headline c2.
Proof.
  unfold verdict_text, approved_headline, rejected_headline. simpl.
  discriminate.
Qed.

Lemma verdict_mentions_outcome c :
  contains "Approved" (verdict_text approved_headline c) = true /\
  contains "Rejected" (verdict_text rejected_headline c) = true /\
  contains qualifier (verdict_text rejected_headline c) = true /\
  String.prefix approved_headline (verdict_text approved_headline c) = true /\
  String.prefix rejected_headline (verdict_text rejected_headline c) = true.
Proof. repeat split; reflexivity. Qed.

Lemma error_text_is_no_verdict msg c :
  error_prefix ++ msg <> verdict_text approved_headline c /\
  error_prefix ++ msg <> verdict_text rejected_headline c.
Proof.
  split; intros H;
    [apply (proj1 (verdict_not_error_prefixed c))
    |apply (proj2 (verdict_not_error_prefixed c))];
    exists msg; now rewrite H.
Qed.

(** X8. Every string [predict_loan] returns has exactly one of three shapes: the
    approval verdict, the rejection verdict (with the qualifier), or the error
    prefix followed by a message; the three cannot be confused, and a verdict
    names its outcome. *)
Theorem response_shapes (a : RawApplication) (g : globals) (s : string) :
  fst (predict_loan a g) = Ok s ->
  ((exists c, s = verdict_text approved_headline c) /\
   contains "Approved" s = true /\
   ~ (exists c, s = verdict_text rejected_headline c) /\ ~ error_prefixed s) \/
  ((exists c, s = verdict_text rejected_headline c) /\
   contains "Rejected" s = true /\ contains qualifier s = true /\
   ~ (exists c, s = verdict_text approved_headline c) /\ ~ error_prefixed s) \/
  (error_prefixed s /\
   ~ (exists c, s = verdict_text approved_headline c) /\
   ~ (exists c, s = verdict_text rejected_headline c)).
Proof.
  intros Hs. unfold predict_loan, bind, lift, gets in Hs.
  destruct (input_dict_of a) as [d|e]; [|discriminate].
  destruct (select_columns (DataFrame_of_row d) (feature_names g)) as [f|e];
    [|discriminate].
  unfold try_except in Hs.
  destruct (try_body f g) as [[v|e] g'] eqn:Hb; [simpl in Hs|].
  - inversion Hs; subst v.
    destruct (try_body_ok_shape f g s g' Hb) as [c [-> | ->]].
    + left. split; [eauto|]. split; [apply verdict_mentions_outcome|].
      split; [intros [c' Hc']; eapply verdicts_differ; eauto
             |apply verdict_not_error_prefixed].
    + right; left. split; [eauto|].
      split; [apply verdict_mentions_outcome|].
      split; [apply verdict_mentions_outcome|].
      split; [intros [c' Hc']; eapply verdicts_differ; eauto
             |apply verdict_not_error_prefixed].
  - unfold on_exception, ret in Hs. simpl in Hs. inversion Hs. right; right.
    split; [exists (exn_str e); reflexivity|].
    split; intros [c Hc].
    + exact (proj1 (error_text_is_no_verdict _ _) Hc).
    + exact (proj2 (error_text_is_no_verdict _ _) Hc).
Qed.

Lemma response_shapes_witness :
  let s := verdict_text approved_headline (fmul f_0_875 (float_of_int 100)) in
  ((exists c, s = verdict_text approved_headline c) /\
   contains "Approved" s = true /\
   ~ (exists c, s = verdict_text rejected_headline c) /\ ~ error_prefixed s) \/
  ((exists c, s = verdict_text rejected_headline c) /\
   contains "Rejected" s = true /\ contains qualifier s = true /\
   ~ (exists c, s = verdict_text approved_headline c) /\ ~ error_prefixed s) \/
  (error_prefixed s /\
   ~ (exists c, s = verdict_text approved_headline c) /\
   ~ (exists c, s = verdict_text rejected_headline c)).
Proof.
  intros s. apply (response_shapes example_row (load sample_artifact) s).
  reflexivity.
Defined.

(** ** Edge cases of the classifier's output *)

Section AfterScaling.
Variables (a : RawApplication) (g : globals) (d : dict number) (f : frame)
          (scaled : ndarray) (df : fframe).
Hypothesis Hd : input_dict_of a = Ok d.
Hypothesis Hf : select_columns (DataFrame_of_row d) (feature_names g) = Ok f.
Hypothesis Hs : transform (scaler g) f = Ok scaled.
Hypothesis Hdf : DataFrame scaled (feature_names g) = Ok df.

Lemma after_scaling prediction probability :
  predict (model g) df = Ok prediction ->
  predict_proba (model g) df = Ok probability ->
  try_body f g =
    (match index prediction 0 with
     | Exc e => Exc e
     | Ok label =>
         match index probability 0 with
         | Exc e => Exc e
         | Ok row =>
             if label =? 0
             then match index row 0 with
                  | Exc e => Exc e
                  | Ok p => Ok (verdict_text approved_headline
                                  (fmul p (float_of_int 100)))
                  end
             else match index row 1 with
                  | Exc e => Exc e
                  | Ok p => Ok (verdict_text rejected_headline
                                  (fmul p (float_of_int 100)))
                  end
         end
     end, g).
Proof using Hs Hdf.
  intros Hp Hpp. unfold try_body, bind, gets, lift, ret.
  rewrite Hs, Hdf, Hp, Hpp.
  destruct (index prediction 0) as [label|e]; [|reflexivity].
  destruct (label =? 0);
    (destruct (index probability 0) as [row|e]; [|reflexivity]);
    [destruct (index row 0) | destruct (index row 1)]; reflexivity.
Qed.

Lemma answered_with b :
  try_body f g = (b, g) ->
  predict_loan a g =
    (Ok (match b with Ok s => s | Exc e => error_prefix ++ exn_str e end), g).
Proof using Hd Hf.
  intros Hb. rewrite (predict_loan_guarded a g d f Hd Hf).
  destruct b; [eapply try_except_ok | eapply try_except_caught]; eauto.
Qed.
End AfterScaling.

(** X9. The classifier's label is only compared with 0: every other label, not
    just 1, is reported as a rejection, with the probability at index 1 as
    its confidence. *)
Theorem nonzero_label_is_rejection (a : RawApplication) (g : globals)
    (d : dict number) (f : frame) (scaled : ndarray) (df : fframe)
    (label : Z) (labels : list Z) (row : list float) (rows : list (list float))
    (p1 : float) :
  input_dict_of a = Ok d ->
  select_columns (DataFrame_of_row d) (feature_names g) = Ok f ->
  transform (scaler g) f = Ok scaled ->
  DataFrame scaled (feature_names g) = Ok df ->
  predict (model g) df = Ok (label :: labels) ->
  predict_proba (model g) df = Ok (row :: rows) ->
  label <> 0 ->
  nth_error row 1 = Some p1 ->
  predict_loan a g =
    (Ok (verdict_text rejected_headline (fmul p1 (float_of_int 100))), g).
Proof.
  intros Hd Hf Hs Hdf Hp Hpp Hl H1.
  rewrite (answered_with a g d f Hd Hf
             (Ok (verdict_text rejected_headline (fmul p1 (float_of_int 100))))).
  - reflexivity.
  - rewrite (after_scaling g f scaled df Hs Hdf _ _ Hp Hpp). simpl.
    apply Z.eqb_neq in Hl. rewrite Hl.
    now rewrite (index_nth _ _ _ H1).
Qed.

Lemma nonzero_label_is_rejection_witness :
  let g := load (artifact (constant_model 2) identity_scaler FEATURE_KEYS) in
  predict_loan example_row g =
    (Ok (verdict_text rejected_headline (fmul f_0_875 (float_of_int 100))), g).
Proof.
  intros g.
  apply (nonzero_label_is_rejection example_row g
           (build_input_dict example_row 1 2 0 0 0 0 0 1 0)
           (build_input_dict example_row 1 2 0 0 0 0 0 1 0)
           {| nd_width := 17;
              nd_rows := [map (fun c => float_of_number (snd c))
                            (build_input_dict example_row 1 2 0 0 0 0 0 1 0)] |}
           {| ff_columns := FEATURE_KEYS;
              ff_rows := [map (fun c => float_of_number (snd c))
                            (build_input_dict example_row 1 2 0 0 0 0 0 1 0)] |}
           2 [] [f_0_125; f_0_875] [] f_0_875);
    try reflexivity.
  discriminate.
Defined.

(** X10. A classifier output that is too short is reported, not read past: no
    label or no probability row gives the index error for position 0; label 0
    needs one probability only, any other label needs two. *)
Theorem short_classifier_output (a : RawApplication) (g : globals)
    (d : dict number) (f : frame) (scaled : ndarray) (df : fframe)
    (prediction : list Z) (probability : list (list float)) :
  input_dict_of a = Ok d ->
  select_columns (DataFrame_of_row d) (feature_names g) = Ok f ->
  transform (scaler g) f = Ok scaled ->
  DataFrame scaled (feature_names g) = Ok df ->
  predict (model g) df = Ok prediction ->
  predict_proba (model g) df = Ok probability ->
  (prediction = [] ->
   predict_loan a g = (Ok (error_prefix ++ exn_str (IndexError 0 0)), g)) /\
  (prediction <> [] -> probability = [] ->
   predict_loan a g = (Ok (error_prefix ++ exn_str (IndexError 0 0)), g)) /\
  (forall labels rows, prediction = 0 :: labels -> probability = [] :: rows ->
   predict_loan a g = (Ok (error_prefix ++ exn_str (IndexError 0 0)), g)) /\
  (forall labels p rows, prediction = 0 :: labels -> probability = [p] :: rows ->
   predict_loan a g =
     (Ok (verdict_text approved_headline (fmul p (float_of_int 100))), g)) /\
  (forall label labels row rows,
     prediction = label :: labels -> label <> 0 ->
     probability = row :: rows -> (List.length row < 2)%nat ->
     predict_loan a g =
       (Ok (error_prefix ++ exn_str (IndexError 1 (List.length row))), g)) /\
  exn_str (IndexError 0 0) = "index 0 is out of bounds for axis 0 with size 0".
Proof.
  intros Hd Hf Hs Hdf Hp Hpp.
  pose proof (after_scaling g f scaled df Hs Hdf _ _ Hp Hpp) as Hbody.
  repeat split.
  - intros ->. now rewrite (answered_with a g d f Hd Hf _ Hbody).
  - intros Hne ->. rewrite (answered_with a g d f Hd Hf _ Hbody).
    destruct prediction; [contradiction | reflexivity].
  - intros labels rows -> ->. now rewrite (answered_with a g d f Hd Hf _ Hbody).
  - intros labels p rows -> ->. now rewrite (answered_with a g d f Hd Hf _ Hbody).
  - intros label labels row rows -> Hl -> Hlen.
    rewrite (answered_with a g d f Hd Hf _ Hbody). simpl.
    apply Z.eqb_neq in Hl. rewrite Hl.
    destruct row as [|p0 [|p1 row]]; simpl in *; try reflexivity; lia.
Qed.

Lemma short_classifier_output_witness :
  let silent := {| predict := fun _ => Ok []; predict_proba := fun _ => Ok [] |} in
  let g := load (artifact silent identity_scaler FEATURE_KEYS) in
  let d := build_input_dict example_row 1 2 0 0 0 0 0 1 0 in
  let scaled := {| nd_width := 17;
                   nd_rows := [map (fun c => float_of_number (snd c)) d] |} in
  let prediction := @nil Z in
  let probability := @nil (list float) in
  (prediction = [] ->
   predict_loan example_row g = (Ok (error_prefix ++ exn_str (IndexError 0 0)), g)) /\
  (prediction <> [] -> probability = [] ->
   predict_loan example_row g = (Ok (error_prefix ++ exn_str (IndexError 0 0)), g)) /\
  (forall labels rows, prediction = 0 :: labels -> probability = [] :: rows ->
   predict_loan example_row g = (Ok (error_prefix ++ exn_str (IndexError 0 0)), g)) /\
  (forall labels p rows, prediction = 0 :: labels -> probability = [p] :: rows ->
   predict_loan example_row g =
     (Ok (verdict_text approved_headline (fmul p (float_of_int 100))), g)) /\
  (forall label labels row rows,
     prediction = label :: labels -> label <> 0 ->
     probability = row :: rows -> (List.length row < 2)%nat ->
     predict_loan example_row g =
       (Ok (error_prefix ++ exn_str (IndexError 1 (List.length row))), g)) /\
  exn_str (IndexError 0 0) = "index 0 is out of bounds for axis 0 with size 0".
Proof.
  intros silent g d scaled prediction probability.
  apply (short_classifier_output example_row g d (DataFrame_of_row d) scaled
           {| ff_columns := FEATURE_KEYS; ff_rows := nd_rows scaled |}
           prediction probability); reflexivity.
Defined.

(** ** When the classifier is not consulted *)

(** X11. A request that does not get through encoding, column selection, scaling
    and the construction of the scaled frame is answered without the
    classifier: the result is the same for every classifier. *)
Theorem classifier_not_consulted (a : RawApplication) (g1 g2 : globals) :
  scaler g1 = scaler g2 ->
  feature_names g1 = feature_names g2 ->
  (forall d f scaled df,
     input_dict_of a = Ok d ->
     select_columns (DataFrame_of_row d) (feature_names g1) = Ok f ->
     transform (scaler g1) f = Ok scaled ->
     DataFrame scaled (feature_names g1) = Ok df -> False) ->
  fst (predict_loan a g1) = fst (predict_loan a g2).
Proof.
  intros Hsc Hn Hstop. unfold predict_loan, bind, lift, gets.
  destruct (input_dict_of a) as [d|e] eqn:Hd; [|reflexivity].
  rewrite <- Hn.
  destruct (select_columns (DataFrame_of_row d) (feature_names g1))
    as [f|e] eqn:Hf; [|reflexivity].
  unfold try_except, try_body, bind, gets, lift. rewrite <- Hsc, <- Hn.
  destruct (transform (scaler g1) f) as [scaled|e] eqn:Hs; [|reflexivity].
  destruct (DataFrame scaled (feature_names g1)) as [df|e] eqn:Hdf;
    [|reflexivity].
  exfalso. eapply Hstop; eauto.
Qed.

Lemma classifier_not_consulted_witness :
  fst (predict_loan example_row
         (load (artifact (constant_model 0) failing_scaler FEATURE_KEYS))) =
  fst (predict_loan example_row
         (load (artifact failing_model failing_scaler FEATURE_KEYS))).
Proof.
  apply (classifier_not_consulted example_row
           (load (artifact (constant_model 0) failing_scaler FEATURE_KEYS))
           (load (artifact failing_model failing_scaler FEATURE_KEYS))).
  - reflexivity.
  - reflexivity.
  - intros d f scaled df _ _ Hs _. discriminate Hs.
Defined.

(** ** The interface and the encoder *)

Lemma accepts_number label value lo hi step v :
  accepts (Number label value lo hi step) v ->
  exists x, v = ANum x /\ within lo hi x = true.
Proof. destruct v; simpl; [tauto | eauto]. Qed.

Lemma accepts_dropdown choices label value v :
  accepts (Dropdown choices label value) v ->
  exists s, v = AStr s /\ In s choices.
Proof. destruct v; simpl; [eauto | tauto]. Qed.

(** A row of values the 13 components offer binds to the 13 parameters. *)
Lemma conforming_row_binds args :
  Forall2 accepts demo_inputs args ->
  exists a, bind_args args = Some a /\ valid_application a /\
            args = [ANum (age a); AStr (gender a); AStr (education a);
                    ANum (income a); ANum (emp_exp a); AStr (home_ownership a);
                    ANum (loan_amount a); AStr (loan_intent a);
                    ANum (interest_rate a); ANum (loan_percent_income a);
                    ANum (credit_history a); ANum (credit_score a);
                    AStr (previous_defaults a)].
Proof.
  unfold demo_inputs. intros H.
  repeat match goal with
         | H : Forall2 accepts (_ :: _) _ |- _ => inversion H; subst; clear H
         end.
  match goal with
  | H : Forall2 accepts [] _ |- _ => inversion H; subst; clear H
  end.
  repeat match goal with
         | H : accepts (Number _ _ _ _ _) _ |- _ =>
             apply accepts_number in H; destruct H as (? & -> & ?)
         | H : accepts (Dropdown _ _ _) _ |- _ =>
             apply accepts_dropdown in H; destruct H as (? & -> & ?)
         end.
  eexists. split; [reflexivity|]. split; [|reflexivity].
  unfold valid_application, valid_enums; simpl.
  repeat split; auto; simpl in *; tauto.
Qed.

(** X12. The interface and the encoder agree: each Dropdown offers exactly the
    keys of the map its parameter is looked up in (the intent Dropdown the five
    flag names), so every row of values the components offer binds to a valid
    request, and that request is answered with a string whenever the declared
    feature names are among the 17 keys. *)
Theorem interface_requests_are_valid :
  same_set (choices_at 1) (keys gender_map) /\
  same_set (choices_at 2) (keys education_map) /\
  same_set (choices_at 5) (keys home_map) /\
  choices_at 7 = intent_names /\
  same_set (choices_at 12) (keys defaults_map) /\
  List.length demo_inputs = 13%nat /\
  (forall args, Forall2 accepts demo_inputs args ->
     exists a, bind_args args = Some a /\ valid_application a /\
       forall g, incl (feature_names g) FEATURE_KEYS ->
         exists s, predict_loan a g = (Ok s, g)).
Proof.
  split; [intros k; simpl; tauto|].
  split; [intros k; simpl; tauto|].
  split; [intros k; simpl; tauto|].
  split; [reflexivity|].
  split; [intros k; simpl; tauto|].
  split; [reflexivity|].
  intros args Hacc.
  destruct (conforming_row_binds args Hacc) as (a & Hb & Hv & _).
  exists a. split; [exact Hb|]. split; [exact Hv|].
  intros g Hincl. destruct Hv as [Hv _].
  destruct (input_dict_of_valid a Hv) as (ge & ee & he & de & H).
  destruct H as (_ & _ & _ & _ & Hd).
  match type of Hd with _ = Ok ?x => set (d := x) in * end.
  destruct (select_columns_ok (DataFrame_of_row d) (feature_names g))
    as (f & Hf & _).
  { intros n Hn. change (In n (keys d)).
    rewrite (input_dict_of_keys a d Hd). auto. }
  rewrite (predict_loan_guarded a g d f Hd Hf). apply guarded_returns.
Qed.

Lemma demo_examples_conform :
  Forall (Forall2 accepts demo_inputs) demo_examples.
Proof.
  unfold demo_examples, demo_inputs.
  repeat (apply Forall_cons || apply Forall_nil);
    repeat (apply Forall2_cons || apply Forall2_nil);
    simpl; try reflexivity; tauto.
Qed.

(** X13. The default values of the components and the three example rows are
    values the components offer (choices of their Dropdown, numbers within
    minimum and maximum); the defaults are the first example row, which is the
    request [example_row]; and every example is answered with a string by any
    artifact whose declared names are among the 17 keys. *)
Theorem examples_and_defaults_conform (row : list arg) (g : globals) :
  In row (map default_arg demo_inputs :: demo_examples) ->
  incl (feature_names g) FEATURE_KEYS ->
  Forall2 accepts demo_inputs row /\
  List.length row = 13%nat /\
  map default_arg demo_inputs = hd [] demo_examples /\
  bind_args (hd [] demo_examples) = Some example_row /\
  exists a s, bind_args row = Some a /\ valid_application a /\
              predict_loan a g = (Ok s, g).
Proof.
  intros Hin Hincl.
  assert (Hacc : Forall2 accepts demo_inputs row).
  { destruct Hin as [<-|Hin].
    - unfold demo_inputs. simpl.
      repeat (apply Forall2_cons || apply Forall2_nil);
        simpl; try reflexivity; tauto.
    - exact (proj1 (Forall_forall _ _) demo_examples_conform row Hin). }
  split; [exact Hacc|].
  split; [rewrite <- (Forall2_length Hacc); reflexivity|].
  split; [reflexivity|]. split; [reflexivity|].
  destruct (conforming_row_binds row Hacc) as (a & Hb & Hv & _).
  exists a.
  destruct (input_dict_of_valid a (proj1 Hv)) as (ge & ee & he & de & H).
  destruct H as (_ & _ & _ & _ & Hd).
  match type of Hd with _ = Ok ?x => set (d := x) in * end.
  destruct (select_columns_ok (DataFrame_of_row d) (feature_names g))
    as (f & Hf & _).
  { intros n Hn. change (In n (keys d)).
    rewrite (input_dict_of_keys a d Hd). auto. }
  destruct (guarded_returns f g) as [s Hs].
  exists s. split; [exact Hb|]. split; [exact Hv|].
  now rewrite (predict_loan_guarded a g d f Hd Hf).
Qed.

Lemma examples_and_defaults_conform_witness :
  let row := [ ANum (NInt 25); AStr "male"; AStr "High School";
               ANum (NInt 25000); ANum (NInt 2); AStr "RENT";
               ANum (NInt 15000); AStr "VENTURE";
               ANum (NFloat (float_of_decimal 180 1));
               ANum (NFloat (float_of_decimal 6 1));
               ANum (NInt 2); ANum (NInt 550); AStr "Yes" ] in
  let g := load sample_artifact in
  Forall2 accepts demo_inputs row /\
  List.length row = 13%nat /\
  map default_arg demo_inputs = hd [] demo_examples /\
  bind_args (hd [] demo_examples) = Some example_row /\
  exists a s, bind_args row = Some a /\ valid_application a /\
              predict_loan a g = (Ok s, g).
Proof.
  intros row g. apply (examples_and_defaults_conform row g).
  - right. right. right. left. reflexivity.
  - apply incl_refl.
Defined.
